(** * Employee Management System: the client-side fetch-and-form layer

    A shallow embedding of the React components [EmployeeForm],
    [EmployeeList], [SearchBar], [Dashboard] and of the [employeeService]
    gateway, followed by the properties of the specification.

    Component state lives in one [World]; the handlers are programs of a
    small state-and-exception monad whose trace records every gateway
    call, notification, console message and confirmation prompt in the
    order in which the JavaScript performs them.

    A handler runs to its end before the next one starts: an [await] is a
    call whose reply is at hand, so overlapping requests are not modelled.
    The replies have the shapes the backend contract gives them.  A state
    setter takes effect at once; no handler reads a state variable after
    setting it, so this agrees with the closures of React.  The renders
    between two handlers are steps of their own where they matter: the
    effects of a component, and the mounting of the form and of the list,
    which the dashboard renders only part of the time and which start from
    their initial state each time they are rendered again. *)

From Stdlib Require Import ZArith NArith Ascii String.
From Stdlib Require Import Floats.SpecFloat.
From stdpp Require Import gmap strings list pretty sorting.

Local Open Scope N_scope.

(** ** JavaScript strings

    A string is a sequence of UTF-16 code units.  Literals of the source
    are ASCII and are written [lit "..."]. *)

Definition jsstring : Type := list N.

Definition lit (s : string) : jsstring :=
  N_of_ascii <$> list_ascii_of_string s.

(** [WhiteSpace] and [LineTerminator] of ECMAScript: the code units removed
    by [String.prototype.trim] and matched by the regular expression class
    [\s]. *)
Definition is_space (c : N) : bool :=
  (c =? 9) || (c =? 10) || (c =? 11) || (c =? 12) || (c =? 13) || (c =? 32)
  || (c =? 160) || (c =? 5760) || ((8192 <=? c) && (c <=? 8202))
  || (c =? 8232) || (c =? 8233) || (c =? 8239) || (c =? 8287)
  || (c =? 12288) || (c =? 65279).

Fixpoint trimStart (s : jsstring) : jsstring :=
  match s with
  | c :: s' => if is_space c then trimStart s' else s
  | [] => []
  end.

Definition trimEnd (s : jsstring) : jsstring := rev (trimStart (rev s)).

(** [s.trim()] *)
Definition trim (s : jsstring) : jsstring := trimEnd (trimStart s).

(** Truthiness of a string: only the empty string is falsy. *)
Definition str_truthy (s : jsstring) : bool :=
  match s with [] => false | _ :: _ => true end.

(** [String(n)] for a non-negative integer such as [results.length]. *)
Definition show_nat (n : nat) : jsstring := lit (pretty n).

(** ** JavaScript numbers

    A number is an IEEE 754 binary64 value, in the representation of the
    standard library's specification of floating-point arithmetic: a signed
    zero, a signed infinity, NaN, or a sign with a mantissa of at most 53
    bits and a binary exponent. *)

Definition jsnum : Type := spec_float.

Definition NaN : jsnum := S754_nan.

Definition Inf (neg : bool) : jsnum := S754_infinity neg.

(** The Number value of the decimal [(-1)^neg * m * 10^e]: the binary64
    value nearest to it, ties to even, with overflow to an infinity and
    underflow to a zero of the same sign.  For [e >= 0] the integer
    [m * 10^e] is rounded; for [e < 0] the quotient of [m] by [10^(-e)] is
    computed with the bits the format needs and the position of the
    remainder, and rounded once. *)
Definition Fin (neg : bool) (m : N) (e : Z) : jsnum :=
  match m with
  | 0 => S754_zero neg
  | Npos p =>
      match e with
      | Z0 => binary_round 53 1024 neg p 0
      | Zpos k => binary_round 53 1024 neg (p * 10 ^ k)%positive 0
      | Zneg k =>
          let '(q, e', l) :=
            SFdiv_core_binary 53 1024 (Zpos p) 0 (Zpos (10 ^ k)%positive) 0 in
          binary_round_aux 53 1024 neg q e' l
      end
  end.

Definition num_zero : jsnum := Fin false 0 0%Z.

(** [x < 0] on numbers. *)
Definition num_lt_zero (x : jsnum) : bool := SFltb x num_zero.

(** Truthiness of a number: [NaN], [+0] and [-0] are falsy. *)
Definition num_truthy (x : jsnum) : bool :=
  match x with
  | S754_nan | S754_zero _ => false
  | S754_infinity _ | S754_finite _ _ _ => true
  end.

(** *** Numeric literals in strings *)

Definition digit_of (c : N) : option N :=
  if (48 <=? c) && (c <=? 57) then Some (c - 48) else None.

(** The longest run of decimal digits at the head of [s]: its value when
    read after the digits already accumulated in [acc], its length, and
    the rest of the string. *)
Fixpoint digits (acc : N) (len : nat) (s : jsstring) : N * nat * jsstring :=
  match s with
  | c :: s' =>
      match digit_of c with
      | Some d => digits (10 * acc + d) (S len) s'
      | None => (acc, len, s)
      end
  | [] => (acc, len, [])
  end.

(** [ExponentPart]: [e] or [E], an optional sign and at least one digit.
    When the part is not complete nothing is consumed. *)
Definition exponent_part (s : jsstring) : Z * jsstring :=
  match s with
  | c :: s' =>
      if (c =? 101) || (c =? 69) then
        let '(neg, s'') :=
          match s' with
          | 43 :: t => (false, t)
          | 45 :: t => (true, t)
          | _ => (false, s')
          end in
        match digits 0 0 s'' with
        | (_, O, _) => (0%Z, s)
        | (v, _, rest) => ((if neg then - Z.of_N v else Z.of_N v)%Z, rest)
        end
      else (0%Z, s)
  | [] => (0%Z, [])
  end.

(** The longest prefix of [s] that is a [StrUnsignedDecimalLiteral] other
    than [Infinity], as mantissa and decimal exponent. *)
Definition unsigned_decimal (s : jsstring) : option (N * Z * jsstring) :=
  let '(ip, ilen, s1) := digits 0 0 s in
  let after_fraction :=
    match s1 with
    | 46 :: s2 =>
        let '(m, flen, s3) := digits ip 0 s2 in
        match ilen, flen with
        | O, O => None
        | _, _ => Some (m, flen, s3)
        end
    | _ => match ilen with O => None | _ => Some (ip, O, s1) end
    end in
  match after_fraction with
  | Some (m, flen, s3) =>
      let '(e, rest) := exponent_part s3 in
      Some (m, (e - Z.of_nat flen)%Z, rest)
  | None => None
  end.

Fixpoint strip_prefix (p s : jsstring) : option jsstring :=
  match p, s with
  | [], _ => Some s
  | a :: p', b :: s' => if a =? b then strip_prefix p' s' else None
  | _ :: _, [] => None
  end.

(** The longest prefix of [s] that is a [StrDecimalLiteral], with the rest
    of the string. *)
Definition decimal_literal (s : jsstring) : option (jsnum * jsstring) :=
  let '(neg, s1) :=
    match s with
    | 43 :: t => (false, t)
    | 45 :: t => (true, t)
    | _ => (false, s)
    end in
  match strip_prefix (lit "Infinity") s1 with
  | Some rest => Some (Inf neg, rest)
  | None =>
      match unsigned_decimal s1 with
      | Some (m, e, rest) => Some (Fin neg m e, rest)
      | None => None
      end
  end.

(** Digits of a [NonDecimalIntegerLiteral] in the given radix. *)
Definition radix_digit (radix c : N) : option N :=
  let v :=
    if (48 <=? c) && (c <=? 57) then Some (c - 48)
    else if (97 <=? c) && (c <=? 102) then Some (c - 87)
    else if (65 <=? c) && (c <=? 70) then Some (c - 55)
    else None in
  match v with
  | Some d => if d <? radix then Some d else None
  | None => None
  end.

Fixpoint radix_digits (radix acc : N) (s : jsstring) : option N :=
  match s with
  | [] => Some acc
  | c :: s' =>
      match radix_digit radix c with
      | Some d => radix_digits radix (radix * acc + d) s'
      | None => None
      end
  end.

(** A whole string that is [0x..], [0o..] or [0b..] with at least one
    digit. *)
Definition non_decimal_literal (s : jsstring) : option jsnum :=
  match s with
  | 48 :: c :: ((_ :: _) as ds) =>
      let radix :=
        if (c =? 120) || (c =? 88) then Some 16
        else if (c =? 111) || (c =? 79) then Some 8
        else if (c =? 98) || (c =? 66) then Some 2
        else None in
      match radix with
      | Some r =>
          match radix_digits r 0 ds with
          | Some v => Some (Fin false v 0%Z)
          | None => None
          end
      | None => None
      end
  | _ => None
  end.

(** [StringToNumber]: the conversion applied to a string operand of [<]. *)
Definition StringToNumber (s : jsstring) : jsnum :=
  match trim s with
  | [] => num_zero
  | t =>
      match non_decimal_literal t with
      | Some x => x
      | None =>
          match decimal_literal t with
          | Some (x, []) => x
          | _ => NaN
          end
      end
  end.

(** ** JavaScript values *)

Inductive jsval : Type :=
  | VNull
  | VBool (b : bool)
  | VNum (x : jsnum)
  | VStr (s : jsstring).

Definition truthy (v : jsval) : bool :=
  match v with
  | VNull => false
  | VBool b => b
  | VNum x => num_truthy x
  | VStr s => str_truthy s
  end.

(** [ToNumber] *)
Definition ToNumber (v : jsval) : jsnum :=
  match v with
  | VNull => num_zero
  | VBool b => if b then Fin false 1 0%Z else num_zero
  | VNum x => x
  | VStr s => StringToNumber s
  end.

(** [v < 0] *)
Definition lt_zero (v : jsval) : bool := num_lt_zero (ToNumber v).

(** [parseFloat(v)]: the argument is converted to a string, leading white
    space is skipped and the longest decimal literal at the head is read.
    The string of a number reads back as that number, with [-0] printed
    as ["0"]. *)
Definition parseFloat (v : jsval) : jsnum :=
  match v with
  | VStr s =>
      match decimal_literal (trimStart s) with
      | Some (x, _) => x
      | None => NaN
      end
  | VNum (S754_zero _) => num_zero
  | VNum x => x
  | VNull | VBool _ => NaN
  end.

(** [a || b] on strings. *)
Definition str_or (a b : jsstring) : jsstring :=
  if str_truthy a then a else b.

(** ** Regular expressions

    The fragment of the regular expression language the source uses, with
    a matcher by derivatives.  [regex_test r s] is [r.test(s)] for a
    pattern without anchors: some substring of [s] matches [r]. *)

Inductive regex : Type :=
  | Void
  | Eps
  | Chr (c : N)
  | NonSpace
  | Cat (r1 r2 : regex)
  | Alt (r1 r2 : regex)
  | Star (r : regex).

(** [r+] *)
Definition Plus (r : regex) : regex := Cat r (Star r).

Fixpoint nullable (r : regex) : bool :=
  match r with
  | Void | Chr _ | NonSpace => false
  | Eps | Star _ => true
  | Cat r1 r2 => nullable r1 && nullable r2
  | Alt r1 r2 => nullable r1 || nullable r2
  end.

Fixpoint deriv (c : N) (r : regex) : regex :=
  match r with
  | Void | Eps => Void
  | Chr d => if c =? d then Eps else Void
  | NonSpace => if is_space c then Void else Eps
  | Cat r1 r2 =>
      if nullable r1 then Alt (Cat (deriv c r1) r2) (deriv c r2)
      else Cat (deriv c r1) r2
  | Alt r1 r2 => Alt (deriv c r1) (deriv c r2)
  | Star r1 => Cat (deriv c r1) (Star r1)
  end.

(** Some prefix of [s] matches [r]. *)
Fixpoint match_prefix (r : regex) (s : jsstring) : bool :=
  nullable r ||
  match s with
  | c :: s' => match_prefix (deriv c r) s'
  | [] => false
  end.

Fixpoint regex_test (r : regex) (s : jsstring) : bool :=
  match_prefix r s ||
  match s with
  | _ :: s' => regex_test r s'
  | [] => false
  end.

(** The pattern of [validateForm]: [/\S+@\S+\.\S+/]. *)
Definition email_pattern : regex :=
  Cat (Plus NonSpace)
    (Cat (Chr 64) (Cat (Plus NonSpace) (Cat (Chr 46) (Plus NonSpace)))).

(** ** The data model *)

(** An employee record as the backend returns it.  A text field that is
    [null] or missing is [None]. *)
Module Emp.
Record t : Type := mk {
  id : N;
  employee_id : option jsstring;
  first_name : option jsstring;
  last_name : option jsstring;
  email : option jsstring;
  phone : option jsstring;
  department : option jsstring;
  position : option jsstring;
  salary : jsval;
  hire_date : option jsstring;
  is_active : option bool
}.
End Emp.

(** The draft held by the form: [formData]. *)
Module Form.
Record t : Type := mk {
  employee_id : jsstring;
  first_name : jsstring;
  last_name : jsstring;
  email : jsstring;
  phone : jsstring;
  department : jsstring;
  position : jsstring;
  salary : jsval;
  hire_date : jsstring;
  is_active : bool
}.

(** The initial value of [useState]. *)
Definition initial : t :=
  mk [] [] [] [] [] [] [] (VStr []) [] true.
End Form.

(** The object handed to the gateway: [dataToSubmit]. *)
Module Payload.
Record t : Type := mk {
  employee_id : jsstring;
  first_name : jsstring;
  last_name : jsstring;
  email : jsstring;
  phone : jsval;
  department : jsval;
  position : jsval;
  salary : jsval;
  hire_date : jsval;
  is_active : bool
}.
End Payload.

(** The filter selection of the list: both fields are the [value] of a
    [select], the empty string standing for no filter. *)
Module Filters.
Record t : Type := mk {
  department : jsstring;
  is_active : jsstring
}.
Definition initial : t := mk [] [].
End Filters.

(** The body of a list response: [{employees, total}]. *)
Module Listing.
Record t : Type := mk {
  employees : option (list Emp.t);
  total : option N
}.
End Listing.

Module Stats.
Record t : Type := mk { total : N; active : N; inactive : N }.
Definition initial : t := mk 0 0 0.
End Stats.

(** ** The gateway: [employeeService] *)

Inductive request : Type :=
  | getAllEmployees (params : gmap string jsval)
  | getEmployee (id : N)
  | createEmployee (employeeData : Payload.t)
  | updateEmployee (id : N) (employeeData : Payload.t)
  | deleteEmployee (id : N)
  | deactivateEmployee (id : N)
  | activateEmployee (id : N)
  | searchEmployees (searchTerm : jsstring).

(** What [response.data] is for each operation. *)
Definition response (r : request) : Type :=
  match r with
  | getAllEmployees _ => Listing.t
  | searchEmployees _ => list Emp.t
  | deleteEmployee _ => unit
  | getEmployee _ | createEmployee _ | updateEmployee _ _
  | deactivateEmployee _ | activateEmployee _ => Emp.t
  end.

(** A rejected call. [RemoteError] carries [error.response.data.detail]
    when the body has one and it is a string, as in the replies the
    backend writes itself ([None] when the body has no detail).  A reply
    whose detail is not a string, such as the list of a 422 validation
    reply, has no counterpart in this type: what is proved of a failure
    is proved of the replies with a string detail or none, and of calls
    that got no reply. *)
Inductive failure : Type :=
  | RemoteError (status : N) (detail : option jsstring)
  | TransportError.

Inductive verb : Type := GET | POST | PUT | DELETE | PATCH.

Record http : Type := mk_http {
  method : verb;
  url : jsstring;
  query : gmap string jsval;
  data : option Payload.t
}.

(** The HTTP request each method of [employeeService] hands to axios. *)
Definition wire (r : request) : http :=
  match r with
  | getAllEmployees params =>
      mk_http GET (lit "/api/employees/") params None
  | getEmployee id =>
      mk_http GET (lit "/api/employees/" ++ lit (pretty id)) ∅ None
  | createEmployee employeeData =>
      mk_http POST (lit "/api/employees/") ∅ (Some employeeData)
  | updateEmployee id employeeData =>
      mk_http PUT (lit "/api/employees/" ++ lit (pretty id)) ∅
        (Some employeeData)
  | deleteEmployee id =>
      mk_http DELETE (lit "/api/employees/" ++ lit (pretty id)) ∅ None
  | deactivateEmployee id =>
      mk_http PATCH
        (lit "/api/employees/" ++ lit (pretty id) ++ lit "/deactivate") ∅ None
  | activateEmployee id =>
      mk_http PATCH
        (lit "/api/employees/" ++ lit (pretty id) ++ lit "/activate") ∅ None
  | searchEmployees searchTerm =>
      mk_http GET (lit "/api/employees/search")
        {[ "q" := VStr searchTerm ]} None
  end.

(** ** Component state and the trace *)

Inductive tone : Type := info | success | error.

Inductive event : Type :=
  | Call (r : request)
  | Toast (t : tone) (message : jsstring)
  | ConsoleError (label : jsstring) (e : failure)
  | Confirm (message : jsstring).

Record FormState : Type := mk_form {
  formData : Form.t;
  form_loading : bool;
  errors : gmap string jsstring
}.

Record ListState : Type := mk_list {
  employees : list Emp.t;
  list_loading : bool;
  filters : Filters.t
}.

Record SearchState : Type := mk_search {
  searchTerm : jsstring;
  search_loading : bool
}.

Record DashboardState : Type := mk_dashboard {
  showForm : bool;
  selectedEmployee : option Emp.t;
  refreshKey : N;
  stats : Stats.t;
  searchResults : option (list Emp.t)
}.

(** The state of the four components, the trace of what the program did
    and the number of gateway calls issued so far.  [form] is the state of
    the EmployeeForm while the dashboard renders it, that is while
    [showForm] holds (Dashboard.jsx l.174), and [elist] that of the
    EmployeeList while no search results are shown (l.122-169); the dashboard
    and the search bar are always rendered.  React drops the state of a
    component that is no longer rendered and creates it afresh when the
    component is rendered again: this is [Dashboard.form_mount] and
    [Dashboard.list_mount] below.  What [form] and [elist] hold between an
    unmount and the next mount stands for nothing in the program. *)
Record World : Type := mk_world {
  dashboard : DashboardState;
  form : FormState;
  elist : ListState;
  search : SearchState;
  trace : list event;
  issued : nat
}.

Definition initial_world : World :=
  mk_world
    (mk_dashboard false None 0 Stats.initial None)
    (mk_form Form.initial false ∅)
    (mk_list [] true Filters.initial)
    (mk_search [] false)
    [] 0%nat.

(** What the handlers cannot decide: the reply to the [n]-th gateway call
    and the user's answer to a confirmation prompt. *)
Record Env : Type := mk_env {
  server : nat -> forall r : request, failure + response r;
  window_confirm : jsstring -> bool
}.

(** ** The monad of handlers *)

Inductive outcome (A : Type) : Type :=
  | Returned (a : A)
  | Thrown (e : failure).
Arguments Returned {A} a.
Arguments Thrown {A} e.

Definition M (A : Type) : Type := Env -> World -> outcome A * World.

#[global] Instance M_ret : MRet M := fun A a _ w => (Returned a, w).

#[global] Instance M_bind : MBind M := fun A B f m env w =>
  match m env w with
  | (Returned a, w') => f a env w'
  | (Thrown e, w') => (Thrown e, w')
  end.

Definition get : M World := fun _ w => (Returned w, w).

Definition modify (f : World -> World) : M unit :=
  fun _ w => (Returned tt, f w).

Definition emit (ev : event) : M unit :=
  modify (fun w =>
    mk_world (dashboard w) (form w) (elist w) (search w)
      (trace w ++ [ev]) (issued w)).

(** [await employeeService.m(...)]: the call is issued, and the reply
    either is the value of the expression or is thrown. *)
Definition await (r : request) : M (response r) := fun env w =>
  let w' :=
    mk_world (dashboard w) (form w) (elist w) (search w)
      (trace w ++ [Call r]) (S (issued w)) in
  match server env (issued w) r with
  | inl e => (Thrown e, w')
  | inr x => (Returned x, w')
  end.

(** [try { body } catch (error) { handler }] *)
Definition try_catch {A} (body : M A) (handler : failure -> M A) : M A :=
  fun env w =>
    match body env w with
    | (Thrown e, w') => handler e env w'
    | r => r
    end.

(** [try { body } finally { cleanup }] *)
Definition finally {A} (body : M A) (cleanup : M unit) : M A :=
  fun env w =>
    match body env w with
    | (o, w') =>
        match cleanup env w' with
        | (Returned _, w'') => (o, w'')
        | (Thrown e, w'') => (Thrown e, w'')
        end
    end.

(** A call of an async function whose promise is dropped: what it throws
    does not reach the caller. *)
Definition detached (m : M unit) : M unit := fun env w =>
  (Returned tt, snd (m env w)).

Definition toast (t : tone) (message : jsstring) : M unit :=
  emit (Toast t message).

Definition console_error (label : jsstring) (e : failure) : M unit :=
  emit (ConsoleError label e).

(** [window.confirm(message)] *)
Definition confirm (message : jsstring) : M bool := fun env w =>
  (emit (Confirm message) ;; mret (window_confirm env message)) env w.

Definition upd_form (f : FormState -> FormState) : M unit :=
  modify (fun w =>
    mk_world (dashboard w) (f (form w)) (elist w) (search w)
      (trace w) (issued w)).

Definition upd_list (f : ListState -> ListState) : M unit :=
  modify (fun w =>
    mk_world (dashboard w) (form w) (f (elist w)) (search w)
      (trace w) (issued w)).

Definition upd_search (f : SearchState -> SearchState) : M unit :=
  modify (fun w =>
    mk_world (dashboard w) (form w) (elist w) (f (search w))
      (trace w) (issued w)).

Definition upd_dashboard (f : DashboardState -> DashboardState) : M unit :=
  modify (fun w =>
    mk_world (f (dashboard w)) (form w) (elist w) (search w)
      (trace w) (issued w)).

(** ** EmployeeForm *)

Module EmployeeForm.

Definition setFormData (d : Form.t) : M unit :=
  upd_form (fun s => mk_form d (form_loading s) (errors s)).

Definition setLoading (b : bool) : M unit :=
  upd_form (fun s => mk_form (formData s) b (errors s)).

Definition setErrors (e : gmap string jsstring) : M unit :=
  upd_form (fun s => mk_form (formData s) (form_loading s) e).

(** [x || ''] on a text field of a record. *)
Definition or_empty (x : option jsstring) : jsstring :=
  match x with
  | Some s => str_or s []
  | None => []
  end.

(** The draft the effect on [employee] installs when a record is edited. *)
Definition seed (employee : Emp.t) : Form.t :=
  {| Form.employee_id := or_empty (Emp.employee_id employee);
     Form.first_name := or_empty (Emp.first_name employee);
     Form.last_name := or_empty (Emp.last_name employee);
     Form.email := or_empty (Emp.email employee);
     Form.phone := or_empty (Emp.phone employee);
     Form.department := or_empty (Emp.department employee);
     Form.position := or_empty (Emp.position employee);
     Form.salary :=
       if truthy (Emp.salary employee) then Emp.salary employee
       else VStr [];
     Form.hire_date := or_empty (Emp.hire_date employee);
     Form.is_active :=
       match Emp.is_active employee with
       | Some b => b
       | None => true
       end |}.

Definition useEffect_employee (employee : option Emp.t) : M unit :=
  match employee with
  | Some e => setFormData (seed e)
  | None => mret tt
  end.

(** The [disabled] attribute of the [employee_id] input. *)
Definition employee_id_disabled (employee : option Emp.t) : bool :=
  match employee with
  | Some _ => true
  | None => false
  end.

(** The object [newErrors] that [validateForm] builds from the draft. *)
Definition newErrors (formData : Form.t) : gmap string jsstring :=
  let newErrors : gmap string jsstring := ∅ in
  let newErrors :=
    if negb (str_truthy (trim (Form.employee_id formData)))
    then <["employee_id" := lit "Employee ID is required"]> newErrors
    else newErrors in
  let newErrors :=
    if negb (str_truthy (trim (Form.first_name formData)))
    then <["first_name" := lit "First name is required"]> newErrors
    else newErrors in
  let newErrors :=
    if negb (str_truthy (trim (Form.last_name formData)))
    then <["last_name" := lit "Last name is required"]> newErrors
    else newErrors in
  let newErrors :=
    if negb (str_truthy (trim (Form.email formData)))
    then <["email" := lit "Email is required"]> newErrors
    else if negb (regex_test email_pattern (Form.email formData))
    then <["email" := lit "Email is invalid"]> newErrors
    else newErrors in
  let newErrors :=
    if truthy (Form.salary formData) && lt_zero (Form.salary formData)
    then <["salary" := lit "Salary must be positive"]> newErrors
    else newErrors in
  newErrors.

Definition validateForm : M bool :=
  w ← get;
  let newErrors := newErrors (formData (form w)) in
  setErrors newErrors ;;
  mret (bool_decide (size newErrors = 0%nat)).

(** [s || null] *)
Definition or_null (s : jsstring) : jsval :=
  if str_truthy s then VStr s else VNull.

Definition dataToSubmit (formData : Form.t) : Payload.t :=
  {| Payload.employee_id := Form.employee_id formData;
     Payload.first_name := Form.first_name formData;
     Payload.last_name := Form.last_name formData;
     Payload.email := Form.email formData;
     Payload.phone := or_null (Form.phone formData);
     Payload.department := or_null (Form.department formData);
     Payload.position := or_null (Form.position formData);
     Payload.salary :=
       if truthy (Form.salary formData)
       then VNum (parseFloat (Form.salary formData))
       else VNull;
     Payload.hire_date := or_null (Form.hire_date formData);
     Payload.is_active := Form.is_active formData |}.

(** [error.response?.data?.detail] *)
Definition detail_of (e : failure) : jsstring :=
  match e with
  | RemoteError _ (Some d) => d
  | RemoteError _ None | TransportError => []
  end.

Definition handleSubmit (employee : option Emp.t)
    (onClose onSuccess : M unit) : M unit :=
  valid ← validateForm;
  if negb valid then mret tt
  else
    setLoading true ;;
    finally
      (try_catch
         (w ← get;
          let dataToSubmit := dataToSubmit (formData (form w)) in
          match employee with
          | Some e =>
              await (updateEmployee (Emp.id e) dataToSubmit) ;;
              toast success (lit "Employee updated successfully")
          | None =>
              await (createEmployee dataToSubmit) ;;
              toast success (lit "Employee created successfully")
          end ;;
          onSuccess ;;
          onClose)
         (fun e =>
            console_error (lit "Error saving employee:") e ;;
            let errorMessage :=
              str_or (detail_of e) (lit "Failed to save employee") in
            toast error errorMessage))
      (setLoading false).

(** The inputs the form renders.  Nine of them report a string as their
    [value]; [is_active] is the checkbox and reports [checked]. *)
Inductive input : Type :=
  | employee_id_input
  | first_name_input
  | last_name_input
  | email_input
  | phone_input
  | department_input
  | position_input
  | salary_input
  | hire_date_input
  | is_active_input.

(** The [name] attribute of an input. *)
Definition input_name (i : input) : string :=
  match i with
  | employee_id_input => "employee_id"
  | first_name_input => "first_name"
  | last_name_input => "last_name"
  | email_input => "email"
  | phone_input => "phone"
  | department_input => "department"
  | position_input => "position"
  | salary_input => "salary"
  | hire_date_input => "hire_date"
  | is_active_input => "is_active"
  end.

(** [e.target] of a change event. *)
Record change : Type := mk_change {
  target : input;
  value : jsstring;
  checked : bool
}.

(** [formData[name]] *)
Definition get_field (i : input) (d : Form.t) : jsval :=
  match i with
  | employee_id_input => VStr (Form.employee_id d)
  | first_name_input => VStr (Form.first_name d)
  | last_name_input => VStr (Form.last_name d)
  | email_input => VStr (Form.email d)
  | phone_input => VStr (Form.phone d)
  | department_input => VStr (Form.department d)
  | position_input => VStr (Form.position d)
  | salary_input => Form.salary d
  | hire_date_input => VStr (Form.hire_date d)
  | is_active_input => VBool (Form.is_active d)
  end.

(** [{...formData, [name]: type === 'checkbox' ? checked : value}] *)
Definition set_field (d : Form.t) (e : change) : Form.t :=
  match target e with
  | employee_id_input =>
      Form.mk (value e) (Form.first_name d) (Form.last_name d) (Form.email d)
        (Form.phone d) (Form.department d) (Form.position d) (Form.salary d)
        (Form.hire_date d) (Form.is_active d)
  | first_name_input =>
      Form.mk (Form.employee_id d) (value e) (Form.last_name d) (Form.email d)
        (Form.phone d) (Form.department d) (Form.position d) (Form.salary d)
        (Form.hire_date d) (Form.is_active d)
  | last_name_input =>
      Form.mk (Form.employee_id d) (Form.first_name d) (value e) (Form.email d)
        (Form.phone d) (Form.department d) (Form.position d) (Form.salary d)
        (Form.hire_date d) (Form.is_active d)
  | email_input =>
      Form.mk (Form.employee_id d) (Form.first_name d) (Form.last_name d)
        (value e) (Form.phone d) (Form.department d) (Form.position d)
        (Form.salary d) (Form.hire_date d) (Form.is_active d)
  | phone_input =>
      Form.mk (Form.employee_id d) (Form.first_name d) (Form.last_name d)
        (Form.email d) (value e) (Form.department d) (Form.position d)
        (Form.salary d) (Form.hire_date d) (Form.is_active d)
  | department_input =>
      Form.mk (Form.employee_id d) (Form.first_name d) (Form.last_name d)
        (Form.email d) (Form.phone d) (value e) (Form.position d)
        (Form.salary d) (Form.hire_date d) (Form.is_active d)
  | position_input =>
      Form.mk (Form.employee_id d) (Form.first_name d) (Form.last_name d)
        (Form.email d) (Form.phone d) (Form.department d) (value e)
        (Form.salary d) (Form.hire_date d) (Form.is_active d)
  | salary_input =>
      Form.mk (Form.employee_id d) (Form.first_name d) (Form.last_name d)
        (Form.email d) (Form.phone d) (Form.department d) (Form.position d)
        (VStr (value e)) (Form.hire_date d) (Form.is_active d)
  | hire_date_input =>
      Form.mk (Form.employee_id d) (Form.first_name d) (Form.last_name d)
        (Form.email d) (Form.phone d) (Form.department d) (Form.position d)
        (Form.salary d) (value e) (Form.is_active d)
  | is_active_input =>
      Form.mk (Form.employee_id d) (Form.first_name d) (Form.last_name d)
        (Form.email d) (Form.phone d) (Form.department d) (Form.position d)
        (Form.salary d) (Form.hire_date d) (checked e)
  end.

(** The message rendered under an input: [errors.name && <span>...]. *)
Definition shown_error (errors : gmap string jsstring) (name : string)
    : option jsstring :=
  match errors !! name with
  | Some m => if str_truthy m then Some m else None
  | None => None
  end.

Definition handleChange (e : change) : M unit :=
  w ← get;
  setFormData (set_field (formData (form w)) e) ;;
  if bool_decide
       (is_Some (shown_error (errors (form w)) (input_name (target e))))
  then setErrors (<[input_name (target e) := []]> (errors (form w)))
  else mret tt.

(** The changes the user makes to the inputs, one after the other. *)
Fixpoint typing (es : list change) : M unit :=
  match es with
  | [] => mret tt
  | e :: es' => handleChange e ;; typing es'
  end.

(** The state the three [useState] calls create when the form is mounted
    (l.6-20), and the mounting itself: the state is created and the effect
    on [employee] runs (l.22-37). *)
Definition initial_state : FormState := mk_form Form.initial false ∅.

Definition mount (employee : option Emp.t) : M unit :=
  upd_form (fun _ => initial_state) ;;
  useEffect_employee employee.

End EmployeeForm.

(** ** EmployeeList *)

Module EmployeeList.

Definition setEmployees (l : list Emp.t) : M unit :=
  upd_list (fun s => mk_list l (list_loading s) (filters s)).

Definition setLoading (b : bool) : M unit :=
  upd_list (fun s => mk_list (employees s) b (filters s)).

Definition setFilters (f : Filters.t) : M unit :=
  upd_list (fun s => mk_list (employees s) (list_loading s) f).

(** The object [params] that [fetchEmployees] builds from the filters. *)
Definition params (filters : Filters.t) : gmap string jsval :=
  let params : gmap string jsval := ∅ in
  let params :=
    if str_truthy (Filters.department filters)
    then <["department" := VStr (Filters.department filters)]> params
    else params in
  let params :=
    if negb (bool_decide (Filters.is_active filters = []))
    then <["is_active" :=
             VBool (bool_decide (Filters.is_active filters = lit "true"))]>
           params
    else params in
  params.

Definition fetchEmployees : M unit :=
  finally
    (try_catch
       (setLoading true ;;
        w ← get;
        let params := params (filters (elist w)) in
        data ← await (getAllEmployees params);
        setEmployees (default [] (Listing.employees data)))
       (fun e =>
          console_error (lit "Error fetching employees:") e ;;
          toast error (lit "Failed to fetch employees")))
    (setLoading false).

Definition handleDelete (id : N) (employeeName : jsstring) : M unit :=
  ok ← confirm
         (lit "Are you sure you want to delete " ++ employeeName ++ lit "?");
  if (ok : bool) then
    try_catch
      (await (deleteEmployee id) ;;
       toast success (lit "Employee deleted successfully") ;;
       detached fetchEmployees)
      (fun e =>
         console_error (lit "Error deleting employee:") e ;;
         toast error (lit "Failed to delete employee"))
  else mret tt.

Definition handleToggleStatus (id : N) (currentStatus : bool)
    (employeeName : jsstring) : M unit :=
  try_catch
    ((if currentStatus then
        await (deactivateEmployee id) ;;
        toast success (employeeName ++ lit " deactivated")
      else
        await (activateEmployee id) ;;
        toast success (employeeName ++ lit " activated")) ;;
     detached fetchEmployees)
    (fun e =>
       console_error (lit "Error toggling status:") e ;;
       toast error (lit "Failed to update status")).

(** [a <= b] in the order of the default [sort]: code unit by code unit, a
    proper prefix first. *)
Fixpoint str_leb (a b : jsstring) : bool :=
  match a, b with
  | [], _ => true
  | _ :: _, [] => false
  | x :: a', y :: b' => (x <? y) || ((x =? y) && str_leb a' b')
  end.

Definition str_le (a b : jsstring) : Prop := str_leb a b = true.

#[global] Instance str_le_dec a b : Decision (str_le a b) :=
  decide (str_leb a b = true).

(** [[...new Set(l)]]: the first occurrence of each element, in order. *)
Fixpoint uniq (l : list jsstring) : list jsstring :=
  match l with
  | [] => []
  | x :: l' => x :: filter (fun y => y <> x) (uniq l')
  end.

(** [emp.department], kept by [filter(Boolean)] when it is a non-empty
    string. *)
Definition department_of (emp : Emp.t) : option jsstring :=
  match Emp.department emp with
  | Some s => if str_truthy s then Some s else None
  | None => None
  end.

(** The elements are distinct when [sort] is called, so that the sorted
    array does not depend on the sorting algorithm. *)
Definition getDepartments (employees : list Emp.t) : list jsstring :=
  let depts := uniq (omap department_of employees) in
  merge_sort str_le depts.

(** What the component returns: the spinner, the empty state, or the
    filters above the table.  The cells of a row are left out. *)
Inductive view : Type :=
  | Spinner
  | EmptyState
  | Table (departmentOptions : list jsstring) (selected : Filters.t)
      (rows : list Emp.t).

Definition render (s : ListState) : view :=
  if list_loading s then Spinner
  else if bool_decide (length (employees s) = 0%nat) then EmptyState
  else Table (getDepartments (employees s)) (filters s) (employees s).

(** The [onChange] handlers of the two filters. *)
Definition onDepartmentChange (value : jsstring) : M unit :=
  w ← get;
  setFilters (Filters.mk value (Filters.is_active (filters (elist w)))).

Definition onStatusChange (value : jsstring) : M unit :=
  w ← get;
  setFilters (Filters.mk (Filters.department (filters (elist w))) value).

(** The effect on [refresh] and [filters]. *)
Definition useEffect_fetch : M unit := detached fetchEmployees.

(** The state created when the list is mounted (l.7-12), and the mounting
    itself: the state is created and the effect runs. *)
Definition initial_state : ListState := mk_list [] true Filters.initial.

Definition mount : M unit :=
  upd_list (fun _ => initial_state) ;;
  useEffect_fetch.

End EmployeeList.

(** ** SearchBar *)

Module SearchBar.

Definition setSearchTerm (s : jsstring) : M unit :=
  upd_search (fun st => mk_search s (search_loading st)).

Definition setLoading (b : bool) : M unit :=
  upd_search (fun st => mk_search (searchTerm st) b).

Definition handleSearch
    (onSearchResults : option (list Emp.t) -> M unit) : M unit :=
  w ← get;
  let searchTerm := searchTerm (search w) in
  if negb (str_truthy (trim searchTerm)) then
    toast info (lit "Please enter a search term")
  else
    setLoading true ;;
    finally
      (try_catch
         (results ← await (searchEmployees searchTerm);
          onSearchResults (Some results) ;;
          if bool_decide (length results = 0%nat) then
            toast info (lit "No employees found matching your search")
          else
            toast success
              (lit "Found " ++ show_nat (length results)
                 ++ lit " employee(s)"))
         (fun e =>
            console_error (lit "Error searching employees:") e ;;
            toast error (lit "Failed to search employees")))
      (setLoading false).

Definition handleClear
    (onSearchResults : option (list Emp.t) -> M unit) : M unit :=
  setSearchTerm [] ;;
  onSearchResults None.

End SearchBar.

(** ** Dashboard *)

Module Dashboard.

Definition setShowForm (b : bool) : M unit :=
  upd_dashboard (fun s =>
    mk_dashboard b (selectedEmployee s) (refreshKey s) (stats s)
      (searchResults s)).

Definition setSelectedEmployee (e : option Emp.t) : M unit :=
  upd_dashboard (fun s =>
    mk_dashboard (showForm s) e (refreshKey s) (stats s) (searchResults s)).

Definition setRefreshKey (f : N -> N) : M unit :=
  upd_dashboard (fun s =>
    mk_dashboard (showForm s) (selectedEmployee s) (f (refreshKey s))
      (stats s) (searchResults s)).

Definition setStats (st : Stats.t) : M unit :=
  upd_dashboard (fun s =>
    mk_dashboard (showForm s) (selectedEmployee s) (refreshKey s) st
      (searchResults s)).

Definition setSearchResults (r : option (list Emp.t)) : M unit :=
  upd_dashboard (fun s =>
    mk_dashboard (showForm s) (selectedEmployee s) (refreshKey s)
      (stats s) r).

(** [x.total || 0] *)
Definition total_or_zero (d : Listing.t) : N := default 0 (Listing.total d).

Definition fetchStats : M unit :=
  try_catch
    (allData ← await (getAllEmployees ∅);
     activeData ← await (getAllEmployees {[ "is_active" := VBool true ]});
     inactiveData ← await (getAllEmployees {[ "is_active" := VBool false ]});
     setStats
       {| Stats.total := total_or_zero allData;
          Stats.active := total_or_zero activeData;
          Stats.inactive := total_or_zero inactiveData |})
    (fun e => console_error (lit "Error fetching stats:") e).

Definition handleAddEmployee : M unit :=
  setSelectedEmployee None ;;
  setShowForm true.

Definition handleEditEmployee (employee : Emp.t) : M unit :=
  setSelectedEmployee (Some employee) ;;
  setShowForm true.

Definition handleCloseForm : M unit :=
  setShowForm false ;;
  setSelectedEmployee None.

Definition handleFormSuccess : M unit :=
  setRefreshKey (fun prev => prev + 1).

Definition handleSearchResults (results : option (list Emp.t)) : M unit :=
  setSearchResults results.

(** The handlers of the children as the dashboard mounts them. *)
Definition form_handleSubmit : M unit :=
  w ← get;
  EmployeeForm.handleSubmit (selectedEmployee (dashboard w))
    handleCloseForm handleFormSuccess.

Definition search_handleSearch : M unit :=
  SearchBar.handleSearch handleSearchResults.

Definition search_handleClear : M unit :=
  SearchBar.handleClear handleSearchResults.

(** What is rendered below the search bar: the search results when
    [searchResults] is an array, the list otherwise. *)
Inductive results : Type :=
  | ResultsTable (rows : list Emp.t)
  | NoResults.

Inductive pane : Type :=
  | SearchPane (count : nat) (body : results)
  | ListPane.

Definition main_pane (s : DashboardState) : pane :=
  match searchResults s with
  | Some l =>
      SearchPane (length l)
        (if bool_decide (0 < length l)%nat then ResultsTable l else NoResults)
  | None => ListPane
  end.

(** The effect of the form on [employee], with the record the dashboard
    has selected. *)
Definition form_useEffect : M unit :=
  w ← get;
  EmployeeForm.useEffect_employee (selectedEmployee (dashboard w)).

(** The render after [showForm] has become true: the form is mounted with
    the selected record as its [employee] (l.174-180). *)
Definition form_mount : M unit :=
  w ← get;
  EmployeeForm.mount (selectedEmployee (dashboard w)).

(** The render after [searchResults] has become [null] again: the list is
    mounted in place of the search pane (l.122-169). *)
Definition list_mount : M unit := EmployeeList.mount.

End Dashboard.

(** ** Vocabulary of the specification *)

(** Empty or made of white space only. *)
Definition blank (s : jsstring) : bool := forallb is_space s.

(** The strings a regular expression denotes. *)
Inductive matches : regex -> jsstring -> Prop :=
  | m_eps : matches Eps []
  | m_chr c : matches (Chr c) [c]
  | m_nonspace c : is_space c = false -> matches NonSpace [c]
  | m_cat r1 r2 s1 s2 :
      matches r1 s1 -> matches r2 s2 -> matches (Cat r1 r2) (s1 ++ s2)
  | m_alt_l r1 r2 s : matches r1 s -> matches (Alt r1 r2) s
  | m_alt_r r1 r2 s : matches r2 s -> matches (Alt r1 r2) s
  | m_star_nil r : matches (Star r) []
  | m_star_app r s1 s2 :
      matches r s1 -> matches (Star r) s2 -> matches (Star r) (s1 ++ s2).

(** A non-empty run of code units none of which is white space. *)
Definition word (s : jsstring) : Prop :=
  s <> [] /\ forallb (fun c => negb (is_space c)) s = true.

(** Somewhere in [s] there is a word, [@], a word, [.] and a word. *)
Definition email_shape (s : jsstring) : Prop :=
  exists pre a b c post,
    s = pre ++ a ++ [64] ++ b ++ [46] ++ c ++ post /\
    word a /\ word b /\ word c.

(** The gateway calls and the notifications of a trace, in order. *)
Definition calls (t : list event) : list request :=
  omap (fun ev => match ev with Call r => Some r | _ => None end) t.

Definition toasts (t : list event) : list (tone * jsstring) :=
  omap (fun ev => match ev with Toast k m => Some (k, m) | _ => None end) t.

(** The [n]-th gateway call, when it is [r], is answered with data. *)
Definition succeeds (env : Env) (n : nat) (r : request) : Prop :=
  exists x, server env n r = inr x.

(** The operations of the controllers that call the gateway, with the
    children wired as the dashboard mounts them. *)
Inductive operation : Type :=
  | Submit (employee : option Emp.t)
  | Fetch
  | Delete (id : N) (employeeName : jsstring)
  | Toggle (id : N) (currentStatus : bool) (employeeName : jsstring)
  | Search
  | FetchStats.

Definition perform (op : operation) : M unit :=
  match op with
  | Submit employee =>
      EmployeeForm.handleSubmit employee
        Dashboard.handleCloseForm Dashboard.handleFormSuccess
  | Fetch => EmployeeList.fetchEmployees
  | Delete id employeeName => EmployeeList.handleDelete id employeeName
  | Toggle id currentStatus employeeName =>
      EmployeeList.handleToggleStatus id currentStatus employeeName
  | Search => Dashboard.search_handleSearch
  | FetchStats => Dashboard.fetchStats
  end.

(** The prompt of [handleDelete]. *)
Definition delete_prompt (employeeName : jsstring) : jsstring :=
  lit "Are you sure you want to delete " ++ employeeName ++ lit "?".

(** The operation gets as far as the gateway: the draft is valid, the user
    confirms the deletion, the query is not blank. *)
Definition reaches_gateway (op : operation) (env : Env) (w : World) : Prop :=
  match op with
  | Submit _ => EmployeeForm.newErrors (formData (form w)) = ∅
  | Delete _ employeeName =>
      window_confirm env (delete_prompt employeeName) = true
  | Search => blank (searchTerm (search w)) = false
  | Fetch | Toggle _ _ _ | FetchStats => True
  end.

(** The gateway call the operation makes first. *)
Definition first_call (op : operation) (w : World) : request :=
  match op with
  | Submit (Some e) =>
      updateEmployee (Emp.id e) (EmployeeForm.dataToSubmit (formData (form w)))
  | Submit None =>
      createEmployee (EmployeeForm.dataToSubmit (formData (form w)))
  | Fetch => getAllEmployees (EmployeeList.params (filters (elist w)))
  | Delete id _ => deleteEmployee id
  | Toggle id currentStatus _ =>
      if currentStatus then deactivateEmployee id else activateEmployee id
  | Search => searchEmployees (searchTerm (search w))
  | FetchStats => getAllEmployees ∅
  end.

(** A request that changes a record. *)
Definition is_mutation (r : request) : bool :=
  match r with
  | createEmployee _ | updateEmployee _ _ | deleteEmployee _
  | deactivateEmployee _ | activateEmployee _ => true
  | getAllEmployees _ | getEmployee _ | searchEmployees _ => false
  end.

Definition is_list_request (r : request) : bool :=
  match r with
  | getAllEmployees _ => true
  | _ => false
  end.

(** The code units of the decimal digits. *)
Definition is_digit (c : N) : bool := (48 <=? c) && (c <=? 57).

(** ** Sample data *)

Definition ann : Form.t :=
  {| Form.employee_id := lit "E100";
     Form.first_name := lit "Ann";
     Form.last_name := lit "Lee";
     Form.email := lit "ann@x.com";
     Form.phone := [];
     Form.department := [];
     Form.position := [];
     Form.salary := VStr [];
     Form.hire_date := [];
     Form.is_active := true |}.

Definition jane : Emp.t :=
  {| Emp.id := 7;
     Emp.employee_id := Some (lit "E007");
     Emp.first_name := Some (lit "Jane");
     Emp.last_name := Some (lit "Doe");
     Emp.email := Some (lit "jane@x.com");
     Emp.phone := None;
     Emp.department := Some (lit "Sales");
     Emp.position := None;
     Emp.salary := VNum (Fin false 50000 0%Z);
     Emp.hire_date := None;
     Emp.is_active := Some true |}.

(** Ann Lee with a first name of two spaces and no e-mail. *)
Definition nameless : Form.t :=
  Form.mk (lit "E100") (lit "  ") (lit "Lee") [] [] [] [] (VStr []) [] true.

(** Ann Lee with an e-mail made of one space. *)
Definition space_email : Form.t :=
  Form.mk (lit "E100") (lit "Ann") (lit "Lee") (lit " ")
    [] [] [] (VStr []) [] true.

(** Bob Ray with a phone number, a department, a hiring date and the
    salary [50000.50] typed into its input, and no position. *)
Definition bob : Form.t :=
  Form.mk (lit "E200") (lit "Bob") (lit "Ray") (lit "bob@x.com")
    (lit "555-0100") (lit "Sales") [] (VStr (lit "50000.50"))
    (lit "2024-01-15") true.

(** A draft with no first name, the e-mail ['not-an-email'] and the salary
    [-5] typed into its input. *)
Definition faulty : Form.t :=
  Form.mk (lit "E100") [] (lit "Lee") (lit "not-an-email")
    [] [] [] (VStr (lit "-5")) [] true.

Definition with_draft (d : Form.t) (w : World) : World :=
  mk_world (dashboard w) (mk_form d (form_loading (form w)) (errors (form w)))
    (elist w) (search w) (trace w) (issued w).

Definition with_query (q : jsstring) (w : World) : World :=
  mk_world (dashboard w) (form w) (elist w)
    (mk_search q (search_loading (search w))) (trace w) (issued w).

Definition with_filters (f : Filters.t) (w : World) : World :=
  mk_world (dashboard w) (form w)
    (mk_list (employees (elist w)) (list_loading (elist w)) f)
    (search w) (trace w) (issued w).

(** A backend that answers every call, returning [found] for lists and
    searches, and a user who confirms. *)
Definition reply (found : list Emp.t) (r : request) : response r :=
  match r with
  | getAllEmployees _ =>
      Listing.mk (Some found) (Some (N.of_nat (length found)))
  | searchEmployees _ => found
  | deleteEmployee _ => tt
  | getEmployee _ | createEmployee _ | updateEmployee _ _
  | deactivateEmployee _ | activateEmployee _ => jane
  end.

Definition online (found : list Emp.t) : Env :=
  mk_env (fun _ r => inr (reply found r)) (fun _ => true).

(** A backend that cannot be reached, and a user who declines. *)
Definition offline : Env :=
  mk_env (fun _ _ => inl TransportError) (fun _ => false).

(** A backend that rejects every call, and a user who confirms. *)
Definition rejecting (status : N) (detail : option jsstring) : Env :=
  mk_env (fun _ _ => inl (RemoteError status detail)) (fun _ => true).

Definition conflict : Env :=
  rejecting 409 (Some (lit "Employee ID already exists")).

(** Sample worlds: the initial one with a draft or a query in place. *)
Definition nameless_world : World := with_draft nameless initial_world.
Definition ann_world : World := with_draft ann initial_world.
Definition jane_world : World :=
  with_draft (EmployeeForm.seed jane) initial_world.
Definition doe_world : World := with_query (lit "doe") initial_world.

(** What the user types to enter Ann Lee and Bob Ray, and the worlds in
    which the form has been opened with 'Add Employee' and filled in. *)
Definition ann_typed : list EmployeeForm.change :=
  [EmployeeForm.mk_change EmployeeForm.employee_id_input (lit "E100") false;
   EmployeeForm.mk_change EmployeeForm.first_name_input (lit "Ann") false;
   EmployeeForm.mk_change EmployeeForm.last_name_input (lit "Lee") false;
   EmployeeForm.mk_change EmployeeForm.email_input (lit "ann@x.com") false].

Definition bob_typed : list EmployeeForm.change :=
  [EmployeeForm.mk_change EmployeeForm.employee_id_input (lit "E200") false;
   EmployeeForm.mk_change EmployeeForm.first_name_input (lit "Bob") false;
   EmployeeForm.mk_change EmployeeForm.last_name_input (lit "Ray") false;
   EmployeeForm.mk_change EmployeeForm.email_input (lit "bob@x.com") false;
   EmployeeForm.mk_change EmployeeForm.phone_input (lit "555-0100") false;
   EmployeeForm.mk_change EmployeeForm.department_input (lit "Sales") false;
   EmployeeForm.mk_change EmployeeForm.salary_input (lit "50000.50") false;
   EmployeeForm.mk_change EmployeeForm.hire_date_input (lit "2024-01-15")
     false].

Definition add_and_type (typed : list EmployeeForm.change) : M unit :=
  Dashboard.handleAddEmployee ;;
  Dashboard.form_mount ;;
  EmployeeForm.typing typed.

Definition ann_open : World := (add_and_type ann_typed offline initial_world).2.
Definition bob_open : World := (add_and_type bob_typed offline initial_world).2.
Definition spaced_doe_world : World := with_query (lit " doe ") initial_world.

(** * Properties *)

(** ** Strings, numbers and patterns *)

Example parse_samples :
  parseFloat (VStr (lit "50000")) = Fin false 50000 0%Z /\
  parseFloat (VStr (lit " -12.50e3xyz")) = Fin true 1250 1%Z /\
  parseFloat (VStr (lit ".5")) = Fin false 5 (-1)%Z /\
  parseFloat (VStr (lit "1e")) = Fin false 1 0%Z /\
  parseFloat (VStr (lit "abc")) = NaN /\
  StringToNumber (lit " -5 ") = Fin true 5 0%Z /\
  StringToNumber (lit "0x1F") = Fin false 31 0%Z /\
  StringToNumber (lit "5 apples") = NaN /\
  StringToNumber (lit "") = num_zero /\
  show_nat 12 = lit "12".
Proof. vm_compute. repeat split. Qed.

Example email_samples :
  regex_test email_pattern (lit "a@b.co") = true /\
  regex_test email_pattern (lit "not-an-email") = false /\
  regex_test email_pattern (lit "ann@x.com") = true /\
  regex_test email_pattern (lit "a @b.co") = false /\
  regex_test email_pattern (lit "  x a@b.c y") = true /\
  regex_test email_pattern (lit "a@b.") = false.
Proof. vm_compute. repeat split. Qed.

Lemma trimStart_blank s : blank s = true -> trimStart s = [].
Proof.
  induction s as [|c s IH]; simpl; [done|].
  intros [Hc Hs]%andb_prop. rewrite Hc. auto.
Qed.

Lemma trimStart_nil s : trimStart s = [] -> blank s = true.
Proof.
  induction s as [|c s IH]; simpl; [done|].
  destruct (is_space c); [auto | discriminate].
Qed.

Lemma blank_trimStart s : blank (trimStart s) = blank s.
Proof.
  induction s as [|c s IH]; simpl; [done|].
  destruct (is_space c) eqn:Hc; simpl; rewrite ?Hc; done.
Qed.

Lemma blank_rev s : blank (rev s) = blank s.
Proof.
  unfold blank. induction s as [|c s IH]; simpl; [done|].
  rewrite forallb_app, IH. simpl. rewrite andb_true_r. apply andb_comm.
Qed.

Lemma trim_truthy s : str_truthy (trim s) = negb (blank s).
Proof.
  unfold trim, trimEnd.
  rewrite <- (blank_trimStart s), <- (blank_rev (trimStart s)).
  destruct (trimStart (rev (trimStart s))) as [|c t] eqn:E.
  - rewrite (trimStart_nil _ E). done.
  - rewrite <- (blank_trimStart (rev _)), E.
    assert (is_space c = false) as Hc.
    { clear -E. induction (rev (trimStart s)) as [|a l IH]; simpl in E; [done|].
      destruct (is_space a) eqn:Ha; [auto | congruence]. }
    simpl. rewrite Hc. simpl. destruct (rev t ++ [c]) eqn:E'; [|done].
    by apply app_eq_nil in E' as [_ ?].
Qed.

Lemma trim_blank s : blank s = true -> trim s = [].
Proof.
  intros H. pose proof (trim_truthy s) as T. rewrite H in T.
  by destruct (trim s).
Qed.

Lemma nullable_spec r : nullable r = true <-> matches r [].
Proof.
  induction r; simpl; split; intros H;
    try discriminate; try solve [constructor]; try solve [inversion H].
  - apply andb_prop in H as [H1 H2].
    change (@nil N) with (@nil N ++ []). constructor; tauto.
  - inversion H as [| | |? ? s1 s2 H1 H2| | | |]; subst.
    match goal with E : _ ++ _ = [] |- _ => apply app_eq_nil in E as [-> ->] end.
    apply andb_true_intro. tauto.
  - apply orb_prop in H as [H|H]; [apply m_alt_l | apply m_alt_r]; tauto.
  - apply orb_true_intro. inversion H; subst; tauto.
Qed.

Lemma matches_star_cons r c s :
  matches (Star r) (c :: s) ->
  exists s1 s2, s = s1 ++ s2 /\ matches r (c :: s1) /\ matches (Star r) s2.
Proof.
  intros H. remember (Star r) as r' eqn:Er. remember (c :: s) as t eqn:Et.
  induction H as [| | | | | | |r0 s1 s2 H1 _ H2 IH2]; try discriminate.
  injection Er as ->. destruct s1 as [|a s1]; simpl in Et.
  - auto.
  - injection Et as -> <-. eauto.
Qed.

Lemma deriv_spec r : forall c s, matches (deriv c r) s <-> matches r (c :: s).
Proof.
  induction r as [| |d| |r1 IH1 r2 IH2|r1 IH1 r2 IH2|r IH]; intros c s; simpl.
  - split; intros H; inversion H.
  - split; intros H; inversion H.
  - destruct (N.eqb_spec c d) as [->|Hne]; split; intros H; inversion H; subst;
      try constructor; congruence.
  - destruct (is_space c) eqn:Hc; split; intros H; inversion H; subst;
      try (constructor; done); congruence.
  - assert (matches (Cat (deriv c r1) r2) s <->
            exists s1 s2, s = s1 ++ s2 /\ matches r1 (c :: s1) /\ matches r2 s2)
      as Hcat.
    { split.
      - intros H. inversion H; subst. do 2 eexists. rewrite <- IH1. eauto.
      - intros (s1 & s2 & -> & H1 & H2). constructor; [by apply IH1 | done]. }
    assert (matches (Cat r1 r2) (c :: s) <->
            (exists s1 s2, s = s1 ++ s2 /\ matches r1 (c :: s1) /\ matches r2 s2)
            \/ (matches r1 [] /\ matches r2 (c :: s))) as Hsplit.
    { split.
      - intros H. remember (c :: s) as t eqn:Et.
        inversion H as [| | |? ? s1 s2 H1 H2| | | |]; subst.
        match goal with E : _ ++ _ = _ :: _ |- _ => rename E into E2 end.
        destruct s1 as [|a s1]; simpl in E2.
        + subst. auto.
        + injection E2 as -> <-. left. eauto.
      - intros [(s1 & s2 & -> & H1 & H2) | [H1 H2]].
        + change (c :: s1 ++ s2) with ((c :: s1) ++ s2). by constructor.
        + change (c :: s) with ([] ++ c :: s). by constructor. }
    rewrite Hsplit. destruct (nullable r1) eqn:Hn.
    + apply nullable_spec in Hn. split.
      * intros H. inversion H; subst; [left; by apply Hcat | right].
        split; [done | by apply IH2].
      * intros [H | [_ H]]; [apply m_alt_l; by apply Hcat |].
        apply m_alt_r. by apply IH2.
    + rewrite Hcat. split; [auto |]. intros [H | [H _]]; [done |].
      apply nullable_spec in H. congruence.
  - split; intros H; inversion H; subst;
      solve [apply m_alt_l; by apply IH1 | apply m_alt_r; by apply IH2].
  - split.
    + intros H. inversion H; subst.
      change (c :: s1 ++ s2) with ((c :: s1) ++ s2).
      constructor; [by apply IH | done].
    + intros (s1 & s2 & -> & H1 & H2)%matches_star_cons.
      constructor; [by apply IH | done].
Qed.

Lemma match_prefix_spec s : forall r,
  match_prefix r s = true <-> exists p q, s = p ++ q /\ matches r p.
Proof.
  induction s as [|c s IH]; intros r; simpl.
  - rewrite orb_false_r, nullable_spec. split.
    + intros H. by exists [], [].
    + intros (p & q & E & H). symmetry in E.
      apply app_eq_nil in E as [-> _]. done.
  - rewrite orb_true_iff, nullable_spec, IH. split.
    + intros [H | (p & q & -> & H)].
      * by exists [], (c :: s).
      * exists (c :: p), q. split; [done | by apply deriv_spec].
    + intros (p & q & E & H). destruct p as [|a p]; [by left | right].
      simpl in E. injection E as <- ->.
      exists p, q. split; [done | by apply deriv_spec].
Qed.

Lemma regex_test_spec r s :
  regex_test r s = true <-> exists a p b, s = a ++ p ++ b /\ matches r p.
Proof.
  induction s as [|c s IH]; cbn [regex_test].
  - rewrite orb_false_r, match_prefix_spec. split.
    + intros (p & q & E & H). by exists [], p, q.
    + intros (a & p & b & E & H). symmetry in E.
      apply app_eq_nil in E as [-> E]. eauto.
  - rewrite orb_true_iff, match_prefix_spec, IH. split.
    + intros [(p & q & E & H) | (a & p & b & -> & H)].
      * by exists [], p, q.
      * by exists (c :: a), p, b.
    + intros (a & p & b & E & H). destruct a as [|x a]; simpl in E.
      * left. eauto.
      * injection E as _ ->. right. eauto.
Qed.

Lemma matches_star_nonspace s :
  matches (Star NonSpace) s <-> forallb (fun c => negb (is_space c)) s = true.
Proof.
  split.
  - intros H. remember (Star NonSpace) as r eqn:Er.
    induction H as [| | | | | | |r0 s1 s2 H1 _ H2 IH2]; try discriminate; [done|].
    injection Er as ->. inversion H1; subst. simpl.
    rewrite IH2 by done. by destruct (is_space c).
  - induction s as [|c s IH]; simpl; [constructor|].
    intros [Hc Hs]%andb_prop. change (c :: s) with ([c] ++ s).
    constructor; [|auto]. constructor. by destruct (is_space c).
Qed.

Lemma matches_plus_nonspace s : matches (Plus NonSpace) s <-> word s.
Proof.
  unfold Plus, word. split.
  - intros H. inversion H as [| | |? ? s1 s2 H1 H2| | | |]; subst.
    inversion H1; subst. apply matches_star_nonspace in H2.
    split; [done|]. simpl. rewrite H2. by destruct (is_space c).
  - intros [Hne H]. destruct s as [|c s]; [done|]. simpl in H.
    apply andb_prop in H as [Hc Hs]. change (c :: s) with ([c] ++ s).
    constructor; [|by apply matches_star_nonspace].
    constructor. by destruct (is_space c).
Qed.

Lemma email_pattern_spec s :
  regex_test email_pattern s = true <-> email_shape s.
Proof.
  rewrite regex_test_spec. unfold email_shape, email_pattern. split.
  - intros (pre & p & post & -> & H).
    inversion H as [| | |? ? a t1 Ha H1| | | |]; subst.
    inversion H1 as [| | |? ? x t2 Hx H2| | | |]; subst.
    inversion H2 as [| | |? ? b t3 Hb H3| | | |]; subst.
    inversion H3 as [| | |? ? y c Hy Hc| | | |]; subst.
    inversion Hx; subst. inversion Hy; subst.
    exists pre, a, b, c, post. rewrite <- !matches_plus_nonspace.
    split; [|done]. by rewrite <- !app_assoc.
  - intros (pre & a & b & c & post & -> & Ha & Hb & Hc).
    exists pre, (a ++ [64] ++ b ++ [46] ++ c), post.
    split; [by rewrite <- !app_assoc|].
    repeat (constructor; try by apply matches_plus_nonspace).
Qed.

Lemma lt_zero_truthy v : lt_zero v = true -> truthy v = true.
Proof.
  destruct v as [|b|x|s]; unfold lt_zero; simpl.
  - discriminate.
  - by destruct b.
  - by destruct x as [neg | neg | | neg m e].
  - by destruct s.
Qed.


Lemma pretty_N_char_digit x : is_digit (N_of_ascii (pretty_N_char x)) = true.
Proof. unfold pretty_N_char. by repeat case_match. Qed.

Lemma pretty_N_go_digits x : forall s,
  Forall (fun c => is_digit c = true) (lit s) ->
  Forall (fun c => is_digit c = true) (lit (pretty_N_go x s)).
Proof.
  induction (N.lt_wf_0 x) as [x _ IH]. intros s Hs.
  destruct (decide (x = 0)) as [-> | Hx]; [by rewrite pretty_N_go_0 |].
  rewrite pretty_N_go_step by lia. apply IH.
  - apply N.div_lt; lia.
  - constructor; [apply pretty_N_char_digit | exact Hs].
Qed.

Lemma pretty_N_go_not_empty x : forall s,
  s <> EmptyString -> pretty_N_go x s <> EmptyString.
Proof.
  induction (N.lt_wf_0 x) as [x _ IH]. intros s Hs.
  destruct (decide (x = 0)) as [-> | Hx]; [by rewrite pretty_N_go_0 |].
  rewrite pretty_N_go_step by lia. apply IH; [apply N.div_lt; lia | done].
Qed.

Lemma pretty_digits (n : N) :
  lit (pretty n) <> [] /\ Forall (fun c => is_digit c = true) (lit (pretty n)).
Proof.
  unfold pretty, pretty_N. case_decide as Hn.
  - split; [done | by repeat constructor].
  - split; [| apply pretty_N_go_digits; constructor].
    rewrite pretty_N_go_step by lia.
    intros E. apply (pretty_N_go_not_empty (n `div` 10)
                       (String (pretty_N_char (n `mod` 10)) EmptyString));
      [done |].
    by destruct (pretty_N_go _ _).
Qed.



(** Reading back the decimal digits of a natural number gives the
    binary64 value nearest to it. *)
Lemma digit_of_pretty_N_char x :
  x < 10 -> digit_of (N_of_ascii (pretty_N_char x)) = Some x.
Proof.
  intros Hx.
  assert (x = 0 \/ x = 1 \/ x = 2 \/ x = 3 \/ x = 4 \/ x = 5 \/ x = 6 \/
          x = 7 \/ x = 8 \/ x = 9) as Hcases by lia.
  repeat (destruct Hcases as [-> | Hcases]; [reflexivity |]).
  by subst.
Qed.

Lemma digits_pretty_N_go x : forall s acc len,
  exists k : nat,
    digits acc len (lit (pretty_N_go x s)) =
      digits (acc * 10 ^ N.of_nat k + x) (len + k)%nat (lit s) /\
    (0 < x -> (0 < k)%nat).
Proof.
  induction (N.lt_wf_0 x) as [x _ IH]. intros s acc len.
  destruct (decide (x = 0)) as [-> | Hx].
  - exists 0%nat. rewrite pretty_N_go_0. split; [| lia].
    replace (acc * 10 ^ N.of_nat 0 + 0) with acc by (cbn; lia).
    by replace (len + 0)%nat with len by lia.
  - rewrite pretty_N_go_step by lia.
    destruct (IH (x `div` 10) ltac:(apply N.div_lt; lia)
                (String (pretty_N_char (x `mod` 10)) s) acc len)
      as (k & Hk & _).
    exists (S k). split; [| lia]. rewrite Hk.
    change (lit (String (pretty_N_char (x `mod` 10)) s))
      with (N_of_ascii (pretty_N_char (x `mod` 10)) :: lit s).
    cbn [digits]. rewrite digit_of_pretty_N_char by (apply N.mod_lt; lia).
    replace (10 * (acc * 10 ^ N.of_nat k + x `div` 10) + x `mod` 10)
      with (acc * 10 ^ N.of_nat (S k) + x).
    + by replace (S (len + k)) with (len + S k)%nat by lia.
    + rewrite Nat2N.inj_succ, N.pow_succ_r'.
      pose proof (N.div_mod x 10 ltac:(lia)). nia.
Qed.

Lemma digits_pretty (n : N) :
  exists k : nat, digits 0 0 (lit (pretty n)) = (n, S k, []).
Proof.
  unfold pretty, pretty_N. case_decide as Hn.
  - subst. by exists 0%nat.
  - destruct (digits_pretty_N_go n EmptyString 0 0%nat) as (k & Hk & Hpos).
    destruct k as [| k]; [lia |]. exists k. rewrite Hk.
    cbn [lit digits]. by rewrite N.mul_0_l, N.add_0_l.
Qed.

Lemma digit_cases c :
  is_digit c = true ->
  c = 48 \/ c = 49 \/ c = 50 \/ c = 51 \/ c = 52 \/ c = 53 \/ c = 54 \/
  c = 55 \/ c = 56 \/ c = 57.
Proof. unfold is_digit. intros [?%N.leb_le ?%N.leb_le]%andb_prop. lia. Qed.

Lemma trimStart_digit c t : is_digit c = true -> trimStart (c :: t) = c :: t.
Proof.
  intros Hc. apply digit_cases in Hc.
  repeat (destruct Hc as [-> | Hc]; [reflexivity |]). by subst.
Qed.

Lemma trim_digits s :
  Forall (fun c => is_digit c = true) s -> trim s = s.
Proof.
  intros Hs. destruct s as [| c t]; [done |].
  unfold trim, trimEnd. inversion Hs; subst.
  rewrite trimStart_digit by done.
  assert (Forall (fun c => is_digit c = true) (rev (c :: t))) as Hr
    by (by apply Forall_rev).
  destruct (rev (c :: t)) as [| c' t'] eqn:E.
  - by apply (f_equal (@length N)) in E; rewrite length_rev in E.
  - inversion Hr; subst. rewrite trimStart_digit by done.
    by rewrite <- E, rev_involutive.
Qed.

Lemma decimal_literal_pretty (n : N) :
  decimal_literal (lit (pretty n)) = Some (Fin false n 0%Z, []).
Proof.
  destruct (digits_pretty n) as [k Hk].
  destruct (pretty_digits n) as [Hne Hall].
  assert (unsigned_decimal (lit (pretty n)) = Some (n, 0%Z, [])) as Hu.
  { unfold unsigned_decimal. by rewrite Hk. }
  destruct (lit (pretty n)) as [| c t] eqn:E; [done |].
  inversion Hall as [| ? ? Hc _]; subst.
  assert (decimal_literal (c :: t) =
          match unsigned_decimal (c :: t) with
          | Some (m, e, rest) => Some (Fin false m e, rest)
          | None => None
          end) as ->.
  { apply digit_cases in Hc.
    repeat (destruct Hc as [-> | Hc]; [reflexivity |]). by subst. }
  by rewrite Hu.
Qed.

Lemma non_decimal_literal_digits s :
  Forall (fun c => is_digit c = true) s -> non_decimal_literal s = None.
Proof.
  intros Hs. destruct s as [| a [| c [| b t]]];
    [done | unfold non_decimal_literal; by repeat case_match ..|].
  inversion Hs as [| ? ? _ Hs']; subst.
  inversion Hs' as [| ? ? Hc _]; subst.
  apply digit_cases in Hc. unfold non_decimal_literal.
  destruct (decide (a = 48)) as [-> |]; [| by repeat case_match].
  repeat (destruct Hc as [-> | Hc]; [reflexivity |]). by subst.
Qed.

Lemma parseFloat_pretty (n : N) :
  parseFloat (VStr (lit (pretty n))) = Fin false n 0%Z.
Proof.
  pose proof (decimal_literal_pretty n) as Hd.
  destruct (pretty_digits n) as [Hne Hall].
  cbn [parseFloat]. destruct (lit (pretty n)) as [| c t]; [done |].
  inversion Hall; subst. rewrite trimStart_digit by done. by rewrite Hd.
Qed.

Lemma StringToNumber_pretty (n : N) :
  StringToNumber (lit (pretty n)) = Fin false n 0%Z.
Proof.
  destruct (pretty_digits n) as [Hne Hall].
  pose proof (decimal_literal_pretty n) as Hd.
  pose proof (non_decimal_literal_digits _ Hall) as Hx.
  unfold StringToNumber. rewrite trim_digits by done.
  destruct (lit (pretty n)) as [| c t]; [done |]. by rewrite Hx, Hd.
Qed.

(** A decimal without a minus sign is never below zero, however it is
    rounded. *)
Lemma lt_zero_Fin_nonneg (m : N) (e : Z) : num_lt_zero (Fin false m e) = false.
Proof.
  assert (forall mx ex lx,
            SFltb (binary_round_aux 53 1024 false mx ex lx) (S754_zero false)
            = false) as Haux.
  { intros mx ex lx. unfold binary_round_aux.
    destruct (shr_fexp 53 1024 mx ex lx) as [mrs e1].
    destruct (shr_fexp 53 1024 _ e1 loc_Exact) as [mrs2 e2].
    destruct (shr_m mrs2); [reflexivity | | reflexivity].
    by destruct (Z.leb _ _). }
  assert (forall mx ex,
            SFltb (binary_round 53 1024 false mx ex) (S754_zero false)
            = false) as Hround.
  { intros mx ex. unfold binary_round.
    destruct (shl_align mx ex _). apply Haux. }
  unfold num_lt_zero, Fin. destruct m as [| p]; [reflexivity |].
  destruct e as [| k | k]; try apply Hround.
  destruct (SFdiv_core_binary _ _ _ _ _ _) as [[q e'] l]. apply Haux.
Qed.

(** The rounding of decimals to binary64 on some hard inputs: underflow
    to a signed zero, the smallest subnormal, the first integer that is not
    a Number, the largest Number, overflow, and decimals that are no binary
    fractions. *)
Example rounding_samples :
  StringToNumber (lit "-1e-400") = S754_zero true /\
  lt_zero (VStr (lit "-1e-400")) = false /\
  parseFloat (VStr (lit "2e-324")) = S754_zero false /\
  parseFloat (VStr (lit "3e-324")) = S754_finite false 1 (-1074) /\
  parseFloat (VStr (lit "9007199254740993")) =
    S754_finite false 4503599627370496 1 /\
  parseFloat (VStr (lit "9007199254740993")) =
    parseFloat (VStr (lit "9007199254740992")) /\
  parseFloat (VStr (lit "1.7976931348623157e308")) =
    S754_finite false 9007199254740991 971 /\
  parseFloat (VStr (lit "1.7976931348623159e308")) = Inf false /\
  parseFloat (VStr (lit "1e400")) = Inf false /\
  parseFloat (VStr (lit "0.1")) = S754_finite false 7205759403792794 (-56) /\
  parseFloat (VStr (lit "4.35")) = S754_finite false 4897664594765414 (-50) /\
  parseFloat (VStr (lit "50000.50")) =
    S754_finite false 6872016393076736 (-37) /\
  parseFloat (VStr (lit "-5")) = S754_finite true 5629499534213120 (-50) /\
  lt_zero (VStr (lit "-5")) = true /\
  lt_zero (VStr (lit "-0.000001")) = true /\
  lt_zero (VStr (lit "-5e-324")) = true /\
  lt_zero (VStr (lit "-2e-324")) = false /\
  lt_zero (VStr (lit "-0")) = false /\
  lt_zero (VStr (lit "-Infinity")) = true /\
  lt_zero (VStr (lit "-abc")) = false.
Proof. vm_compute. repeat split. Qed.

(** ** Symbolic execution of handlers *)

Ltac step :=
  cbv beta delta
    [mbind mret M_bind M_ret get modify emit await try_catch finally
     detached toast console_error confirm
     upd_form upd_list upd_search upd_dashboard];
  cbn [dashboard form elist search trace issued
       formData form_loading errors employees list_loading filters
       searchTerm search_loading
       showForm selectedEmployee refreshKey stats searchResults fst snd].

Ltac tidy := rewrite <- ?app_assoc; cbn [app].

(** ** The validator *)

Section Validator.
Import EmployeeForm.
Variable d : Form.t.

Lemma newErrors_employee_id :
  newErrors d !! "employee_id" =
    if blank (Form.employee_id d)
    then Some (lit "Employee ID is required") else None.
Proof.
  unfold newErrors. rewrite !trim_truthy, !negb_involutive.
  repeat case_match; by simplify_map_eq.
Qed.

Lemma newErrors_first_name :
  newErrors d !! "first_name" =
    if blank (Form.first_name d)
    then Some (lit "First name is required") else None.
Proof.
  unfold newErrors. rewrite !trim_truthy, !negb_involutive.
  repeat case_match; by simplify_map_eq.
Qed.

Lemma newErrors_last_name :
  newErrors d !! "last_name" =
    if blank (Form.last_name d)
    then Some (lit "Last name is required") else None.
Proof.
  unfold newErrors. rewrite !trim_truthy, !negb_involutive.
  repeat case_match; by simplify_map_eq.
Qed.

Lemma newErrors_email :
  newErrors d !! "email" =
    if blank (Form.email d) then Some (lit "Email is required")
    else if regex_test email_pattern (Form.email d) then None
    else Some (lit "Email is invalid").
Proof.
  unfold newErrors. rewrite !trim_truthy, !negb_involutive.
  repeat case_match; by simplify_map_eq.
Qed.

Lemma newErrors_salary :
  newErrors d !! "salary" =
    if lt_zero (Form.salary d)
    then Some (lit "Salary must be positive") else None.
Proof.
  unfold newErrors. rewrite !trim_truthy, !negb_involutive.
  destruct (lt_zero (Form.salary d)) eqn:Hlt.
  - rewrite (lt_zero_truthy _ Hlt). cbn [andb].
    repeat case_match; by simplify_map_eq.
  - rewrite andb_false_r. repeat case_match; by simplify_map_eq.
Qed.

(** No other key is ever set. *)
Lemma newErrors_keys k :
  is_Some (newErrors d !! k) ->
  k ∈ ["employee_id"; "first_name"; "last_name"; "email"; "salary"].
Proof.
  unfold newErrors. intros [m Hm]. revert Hm.
  repeat case_match; intros Hm;
    repeat (apply lookup_insert_Some in Hm as [[<- _] | [_ Hm]];
            [set_solver |]);
    by rewrite lookup_empty in Hm.
Qed.

Lemma newErrors_empty :
  newErrors d = ∅ <->
  blank (Form.employee_id d) = false /\ blank (Form.first_name d) = false /\
  blank (Form.last_name d) = false /\ blank (Form.email d) = false /\
  regex_test email_pattern (Form.email d) = true /\
  lt_zero (Form.salary d) = false.
Proof.
  split.
  - intros E.
    pose proof newErrors_employee_id as H1. pose proof newErrors_first_name as H2.
    pose proof newErrors_last_name as H3. pose proof newErrors_email as H4.
    pose proof newErrors_salary as H5.
    rewrite E, lookup_empty in H1, H2, H3, H4, H5.
    repeat case_match; try discriminate; done.
  - intros (H1 & H2 & H3 & H4 & H5 & H6). apply map_eq. intros k.
    rewrite lookup_empty. apply eq_None_not_Some. intros Hk.
    pose proof (newErrors_keys k Hk) as Hin.
    destruct Hk as [m Hm].
    repeat (apply elem_of_cons in Hin as [-> | Hin]).
    + by rewrite newErrors_employee_id, H1 in Hm.
    + by rewrite newErrors_first_name, H2 in Hm.
    + by rewrite newErrors_last_name, H3 in Hm.
    + by rewrite newErrors_email, H4, H5 in Hm.
    + by rewrite newErrors_salary, H6 in Hm.
    + by apply elem_of_nil in Hin.
Qed.

End Validator.

Lemma validateForm_run env w :
  EmployeeForm.validateForm env w =
    (Returned (bool_decide (EmployeeForm.newErrors (formData (form w)) = ∅)),
     mk_world (dashboard w)
       (mk_form (formData (form w)) (form_loading (form w))
          (EmployeeForm.newErrors (formData (form w))))
       (elist w) (search w) (trace w) (issued w)).
Proof.
  unfold EmployeeForm.validateForm, EmployeeForm.setErrors. step.
  do 2 f_equal. apply bool_decide_ext. apply map_size_empty_iff.
Qed.

Lemma calls_app t1 t2 : calls (t1 ++ t2) = calls t1 ++ calls t2.
Proof. apply omap_app. Qed.

Lemma toasts_app t1 t2 : toasts (t1 ++ t2) = toasts t1 ++ toasts t2.
Proof. apply omap_app. Qed.

(** ** The form *)

(** C1. Whenever [employee_id], [first_name], [last_name] or [email] of
    the draft is empty or made of white space only, the mapping built by the
    validator holds the required-field message of each such field and is
    not empty, and [handleSubmit] stores that mapping as the form's errors
    and returns with the trace untouched: no gateway call is made, neither
    [createEmployee] nor [updateEmployee]. *)
Theorem missing_required_field_blocks_submit
    (env : Env) (w : World) (employee : option Emp.t)
    (onClose onSuccess : M unit) :
  let d := formData (form w) in
  let errs := EmployeeForm.newErrors d in
  blank (Form.employee_id d) = true \/ blank (Form.first_name d) = true \/
  blank (Form.last_name d) = true \/ blank (Form.email d) = true ->
  (blank (Form.employee_id d) = true ->
     errs !! "employee_id" = Some (lit "Employee ID is required")) /\
  (blank (Form.first_name d) = true ->
     errs !! "first_name" = Some (lit "First name is required")) /\
  (blank (Form.last_name d) = true ->
     errs !! "last_name" = Some (lit "Last name is required")) /\
  (blank (Form.email d) = true ->
     errs !! "email" = Some (lit "Email is required")) /\
  errs <> ∅ /\
  EmployeeForm.handleSubmit employee onClose onSuccess env w =
    (Returned tt,
     mk_world (dashboard w) (mk_form d (form_loading (form w)) errs)
       (elist w) (search w) (trace w) (issued w)).
Proof.
  intros d errs Hmissing.
  assert (errs <> ∅) as Hne.
  { subst errs. rewrite newErrors_empty. intros (H1 & H2 & H3 & H4 & _).
    destruct Hmissing as [H | [H | [H | H]]]; congruence. }
  repeat split; try done.
  - intros H. subst errs. by rewrite newErrors_employee_id, H.
  - intros H. subst errs. by rewrite newErrors_first_name, H.
  - intros H. subst errs. by rewrite newErrors_last_name, H.
  - intros H. subst errs. by rewrite newErrors_email, H.
  - unfold EmployeeForm.handleSubmit. step. rewrite validateForm_run.
    fold d. fold errs. rewrite (bool_decide_eq_false_2 _ Hne). reflexivity.
Qed.

(** A draft whose first name is two spaces and whose e-mail is empty: both
    messages are collected and nothing is sent, whether a record is being
    edited or not. *)
Lemma missing_required_field_blocks_submit_witness :
  EmployeeForm.newErrors nameless !! "first_name" =
    Some (lit "First name is required")
  /\ EmployeeForm.newErrors nameless !! "email" =
    Some (lit "Email is required")
  /\ trace (EmployeeForm.handleSubmit (Some jane) Dashboard.handleCloseForm
              Dashboard.handleFormSuccess (online []) nameless_world).2 = []
  /\ errors (form (EmployeeForm.handleSubmit None Dashboard.handleCloseForm
              Dashboard.handleFormSuccess (online []) nameless_world).2)
     = EmployeeForm.newErrors nameless.
Proof.
  destruct (missing_required_field_blocks_submit (online []) nameless_world
              (Some jane) Dashboard.handleCloseForm Dashboard.handleFormSuccess)
    as (_ & H2 & _ & H4 & _ & Hrun); [right; left; reflexivity |].
  destruct (missing_required_field_blocks_submit (online []) nameless_world
              None Dashboard.handleCloseForm Dashboard.handleFormSuccess)
    as (_ & _ & _ & _ & _ & Hrun'); [right; left; reflexivity |].
  split; [apply H2; reflexivity |].
  split; [apply H4; reflexivity |].
  rewrite Hrun, Hrun'. split; reflexivity.
Defined.

(** C6, as stated, fails: an e-mail made of one space is not empty and
    does not match the pattern, yet the message the validator gives is
    'Email is required', not 'Email is invalid'. *)
Lemma nonempty_unmatched_email_not_invalid :
  Form.email space_email <> [] /\
  regex_test email_pattern (Form.email space_email) = false /\
  ~ email_shape (Form.email space_email) /\
  EmployeeForm.newErrors space_email !! "email" =
    Some (lit "Email is required") /\
  EmployeeForm.newErrors space_email !! "email" <>
    Some (lit "Email is invalid").
Proof.
  assert (regex_test email_pattern (Form.email space_email) = false) as Hre
    by (vm_compute; reflexivity).
  assert (EmployeeForm.newErrors space_email !! "email" =
            Some (lit "Email is required"))
    as Hreq by (rewrite newErrors_email; reflexivity).
  split; [discriminate |].
  split; [exact Hre |].
  split; [rewrite <- email_pattern_spec; congruence |].
  split; [exact Hreq |].
  rewrite Hreq. vm_compute. congruence.
Qed.

(** C6, amended. The validator evaluates its rules independently and
    collects every violation: the entry of each key is decided by that
    field alone.  An e-mail that is not blank and has no part of the shape
    word [@] word [.] word yields 'Email is invalid' (a blank one, white
    space included, yields 'Email is required'), and ['a@b.co'] yields no
    e-mail error; a salary that is numerically negative, such as [-5] as a
    number or as text or any negative finite number, yields 'Salary must
    be positive', and a salary of [0] or an absent one yields no salary
    error, nor does the text of a natural number, a number that is the
    value of a decimal without a minus sign, or a text such as
    ['-1e-400'], whose Number value is [-0]. *)
Theorem validator_rules_are_independent (d : Form.t) :
  let errs := EmployeeForm.newErrors d in
  errs !! "employee_id" =
    (if blank (Form.employee_id d)
     then Some (lit "Employee ID is required") else None) /\
  errs !! "first_name" =
    (if blank (Form.first_name d)
     then Some (lit "First name is required") else None) /\
  errs !! "last_name" =
    (if blank (Form.last_name d)
     then Some (lit "Last name is required") else None) /\
  (blank (Form.email d) = true ->
     errs !! "email" = Some (lit "Email is required")) /\
  (blank (Form.email d) = false -> ~ email_shape (Form.email d) ->
     errs !! "email" = Some (lit "Email is invalid")) /\
  (blank (Form.email d) = false -> email_shape (Form.email d) ->
     errs !! "email" = None) /\
  (Form.email d = lit "a@b.co" -> errs !! "email" = None) /\
  (lt_zero (Form.salary d) = true ->
     errs !! "salary" = Some (lit "Salary must be positive")) /\
  (lt_zero (Form.salary d) = false -> errs !! "salary" = None) /\
  (Form.salary d = VNum (Fin true 5 0%Z) \/ Form.salary d = VStr (lit "-5") ->
     errs !! "salary" = Some (lit "Salary must be positive")) /\
  (Form.salary d = VNum num_zero \/ Form.salary d = VStr (lit "0") \/
   Form.salary d = VStr [] ->
     errs !! "salary" = None) /\
  (forall n : N,
     Form.salary d = VStr (lit (pretty n)) -> errs !! "salary" = None) /\
  (forall (m : N) (e : Z),
     Form.salary d = VNum (Fin false m e) -> errs !! "salary" = None) /\
  (forall (m : positive) (e : Z),
     Form.salary d = VNum (S754_finite true m e) ->
     errs !! "salary" = Some (lit "Salary must be positive")) /\
  (Form.salary d = VStr (lit "-1e-400") -> errs !! "salary" = None).
Proof.
  intros errs. subst errs.
  rewrite newErrors_employee_id, newErrors_first_name, newErrors_last_name,
    newErrors_email, newErrors_salary.
  do 3 (split; [reflexivity |]).
  split; [by intros -> |].
  split.
  { intros -> Hshape. rewrite <- email_pattern_spec in Hshape.
    by destruct (regex_test email_pattern (Form.email d)). }
  split.
  { intros -> Hshape. apply email_pattern_spec in Hshape. by rewrite Hshape. }
  split; [by intros -> |].
  split; [by intros -> |].
  split; [by intros -> |].
  split; [by intros [-> | ->] |].
  split; [by intros [-> | [-> | ->]] |].
  split.
  { intros n ->. unfold lt_zero. cbn [ToNumber].
    by rewrite StringToNumber_pretty, lt_zero_Fin_nonneg. }
  split.
  { intros m e ->. unfold lt_zero. cbn [ToNumber].
    by rewrite lt_zero_Fin_nonneg. }
  split; [by intros m e -> | by intros ->].
Qed.

(** A draft with three faults: the three messages are collected
    together. *)
Lemma validator_rules_are_independent_witness :
  EmployeeForm.newErrors faulty !! "employee_id" = None /\
  EmployeeForm.newErrors faulty !! "first_name" =
    Some (lit "First name is required") /\
  EmployeeForm.newErrors faulty !! "email" = Some (lit "Email is invalid") /\
  EmployeeForm.newErrors faulty !! "salary" =
    Some (lit "Salary must be positive").
Proof.
  destruct (validator_rules_are_independent faulty)
    as (H1 & H2 & _ & _ & H5 & _ & _ & H8 & _).
  split; [exact H1 |]. split; [exact H2 |].
  split; [| apply H8; reflexivity].
  apply H5; [reflexivity |].
  intros Hshape. apply email_pattern_spec in Hshape. vm_compute in Hshape.
  discriminate Hshape.
Defined.

(** ** The list *)

Lemma fetchEmployees_run env w :
  EmployeeList.fetchEmployees env w =
    (Returned tt,
     match
       server env (issued w)
         (getAllEmployees (EmployeeList.params (filters (elist w))))
     with
     | inr data =>
         mk_world (dashboard w) (form w)
           (mk_list (default [] (Listing.employees data)) false
              (filters (elist w)))
           (search w)
           (trace w ++
              [Call (getAllEmployees
                       (EmployeeList.params (filters (elist w))))])
           (S (issued w))
     | inl e =>
         mk_world (dashboard w) (form w)
           (mk_list (employees (elist w)) false (filters (elist w)))
           (search w)
           (trace w ++
              [Call (getAllEmployees
                       (EmployeeList.params (filters (elist w))));
               ConsoleError (lit "Error fetching employees:") e;
               Toast error (lit "Failed to fetch employees")])
           (S (issued w))
     end).
Proof.
  unfold EmployeeList.fetchEmployees, EmployeeList.setLoading,
    EmployeeList.setEmployees.
  step.
  destruct (server env (issued w) _) as [e | data]; step; tidy; reflexivity.
Qed.

Lemma fetchEmployees_calls env w :
  calls (trace (EmployeeList.fetchEmployees env w).2) =
    calls (trace w) ++
      [getAllEmployees (EmployeeList.params (filters (elist w)))].
Proof.
  rewrite fetchEmployees_run. cbn [snd].
  destruct (server env (issued w) _); cbn [trace]; by rewrite calls_app.
Qed.

Section Params.
Variable f : Filters.t.

Lemma params_department :
  EmployeeList.params f !! "department" =
    if str_truthy (Filters.department f)
    then Some (VStr (Filters.department f)) else None.
Proof.
  unfold EmployeeList.params. repeat case_match; by simplify_map_eq.
Qed.

Lemma params_is_active :
  EmployeeList.params f !! "is_active" =
    if bool_decide (Filters.is_active f = [])
    then None
    else Some (VBool (bool_decide (Filters.is_active f = lit "true"))).
Proof.
  unfold EmployeeList.params. repeat case_match; by simplify_map_eq.
Qed.

Lemma params_keys k :
  is_Some (EmployeeList.params f !! k) ->
  k = "department" \/ k = "is_active".
Proof.
  unfold EmployeeList.params. intros [v Hv]. revert Hv.
  repeat case_match; intros Hv;
    repeat (apply lookup_insert_Some in Hv as [[<- _] | [_ Hv]]; [tauto |]);
    by rewrite lookup_empty in Hv.
Qed.
End Params.

(** C2. Whatever the filter state, the list request [fetchEmployees]
    issues carries the [department] key exactly when a department is
    selected, with that department, and the [is_active] key exactly when
    the status filter is set, as the boolean the selection stands for; it
    carries no other key, the query string of the HTTP request is that
    object, and an unset filter is sent neither as the empty string nor as
    [false].  With only the status set to active the request carries
    [is_active = true] and no [department]; with the empty filter it
    carries nothing. *)
Theorem list_request_omits_unset_filters (env : Env) (w : World) :
  let f := filters (elist w) in
  let p := EmployeeList.params f in
  calls (trace (EmployeeList.fetchEmployees env w).2) =
    calls (trace w) ++ [getAllEmployees p] /\
  query (wire (getAllEmployees p)) = p /\
  p !! "department" =
    (if str_truthy (Filters.department f)
     then Some (VStr (Filters.department f)) else None) /\
  p !! "is_active" =
    (if bool_decide (Filters.is_active f = []) then None
     else Some (VBool (bool_decide (Filters.is_active f = lit "true")))) /\
  (forall k, is_Some (p !! k) -> k = "department" \/ k = "is_active") /\
  p !! "department" <> Some (VStr []) /\
  (Filters.is_active f = [] -> p !! "is_active" = None) /\
  EmployeeList.params (Filters.mk [] (lit "true")) =
    {[ "is_active" := VBool true ]} /\
  EmployeeList.params (Filters.mk [] []) = ∅.
Proof.
  intros f p. subst p.
  split; [apply fetchEmployees_calls |].
  split; [reflexivity |].
  split; [apply params_department |].
  split; [apply params_is_active |].
  split; [apply params_keys |].
  split.
  { rewrite params_department. destruct (Filters.department f); simpl; congruence. }
  split.
  { intros E. rewrite params_is_active, E. reflexivity. }
  split; reflexivity.
Qed.

(** The two requests of the scenario, and a request with both filters
    set. *)
Lemma list_request_omits_unset_filters_witness :
  calls (trace (EmployeeList.fetchEmployees (online [])
                  (with_filters (Filters.mk [] (lit "true")) initial_world)).2)
    = [getAllEmployees {[ "is_active" := VBool true ]}] /\
  calls (trace (EmployeeList.fetchEmployees (online []) initial_world).2)
    = [getAllEmployees ∅] /\
  EmployeeList.params (Filters.mk (lit "Sales") (lit "false")) !! "is_active"
    = Some (VBool false).
Proof.
  destruct (list_request_omits_unset_filters (online [])
              (with_filters (Filters.mk [] (lit "true")) initial_world))
    as (H1 & _).
  destruct (list_request_omits_unset_filters (online []) initial_world)
    as (H1' & _).
  destruct (list_request_omits_unset_filters (online [])
              (with_filters (Filters.mk (lit "Sales") (lit "false"))
                 initial_world))
    as (_ & _ & _ & H4 & _).
  split; [rewrite H1; reflexivity |].
  split; [rewrite H1'; reflexivity |].
  exact H4.
Defined.

(** ** Submitting a valid draft *)

Lemma or_null_not_empty s : EmployeeForm.or_null s <> VStr [].
Proof. by destruct s. Qed.

Lemma handleSubmit_run env w employee :
  EmployeeForm.newErrors (formData (form w)) = ∅ ->
  perform (Submit employee) env w =
    (Returned tt,
     match server env (issued w) (first_call (Submit employee) w) with
     | inr _ =>
         mk_world
           (mk_dashboard false None (refreshKey (dashboard w) + 1)
              (stats (dashboard w)) (searchResults (dashboard w)))
           (mk_form (formData (form w)) false ∅) (elist w) (search w)
           (trace w ++
              [Call (first_call (Submit employee) w);
               Toast success
                 (match employee with
                  | Some _ => lit "Employee updated successfully"
                  | None => lit "Employee created successfully"
                  end)])
           (S (issued w))
     | inl e =>
         mk_world (dashboard w)
           (mk_form (formData (form w)) false ∅) (elist w) (search w)
           (trace w ++
              [Call (first_call (Submit employee) w);
               ConsoleError (lit "Error saving employee:") e;
               Toast error
                 (str_or (EmployeeForm.detail_of e)
                    (lit "Failed to save employee"))])
           (S (issued w))
     end).
Proof.
  intros Hvalid. unfold perform, EmployeeForm.handleSubmit. step.
  rewrite validateForm_run, Hvalid, bool_decide_eq_true_2 by done.
  unfold EmployeeForm.setLoading, Dashboard.handleFormSuccess,
    Dashboard.handleCloseForm, Dashboard.setRefreshKey, Dashboard.setShowForm,
    Dashboard.setSelectedEmployee.
  cbn [negb]. step.
  destruct employee as [e |]; cbn [first_call]; step;
    destruct (server env (issued w) _) as [err | x]; step; tidy; reflexivity.
Qed.

Lemma handleSubmit_calls env w employee :
  EmployeeForm.newErrors (formData (form w)) = ∅ ->
  calls (trace (perform (Submit employee) env w).2) =
    calls (trace w) ++ [first_call (Submit employee) w].
Proof.
  intros Hvalid. rewrite (handleSubmit_run env w employee Hvalid). cbn [snd].
  destruct (server env (issued w) _); cbn [trace]; by rewrite calls_app.
Qed.

(** C3. For a draft that passes validation, [handleSubmit] makes one
    gateway call, [updateEmployee(employee.id, dataToSubmit)] when a record
    is being edited and [createEmployee(dataToSubmit)] otherwise, whose body
    is the normalized draft.  The identifier, the names, the e-mail and the
    active flag are sent as they stand.  An empty [phone], [department],
    [position] or [hire_date] is sent as [null] and a non-empty one as it
    stands.  A falsy [salary] (the empty string in particular) is sent as
    [null]; the decimal digits of a natural number [n] are sent as the
    binary64 number nearest to [n]; a non-zero number, as an edited record
    holds it, is sent unchanged; in general a truthy salary is sent as the
    number [parseFloat] reads from it.  None of the five optional fields is
    ever sent as the empty string, and the salary is never sent as a
    string.  When the call succeeds the handler returns, a success
    notification is shown, [onSuccess] advances the dashboard's refresh
    key, which the fetching effects watch, and [onClose] dismisses the
    form and forgets the selected record; no further call is made and the
    search bar is left as it was. *)
Theorem valid_draft_is_normalized_and_sent
    (env : Env) (w : World) (employee : option Emp.t) :
  let d := formData (form w) in
  let p := EmployeeForm.dataToSubmit d in
  let req :=
    match employee with
    | Some e => updateEmployee (Emp.id e) p
    | None => createEmployee p
    end in
  let r :=
    EmployeeForm.handleSubmit employee
      Dashboard.handleCloseForm Dashboard.handleFormSuccess env w in
  EmployeeForm.newErrors d = ∅ ->
  calls (trace r.2) = calls (trace w) ++ [req] /\
  data (wire req) = Some p /\
  (Form.phone d = [] -> Payload.phone p = VNull) /\
  (Form.department d = [] -> Payload.department p = VNull) /\
  (Form.position d = [] -> Payload.position p = VNull) /\
  (Form.hire_date d = [] -> Payload.hire_date p = VNull) /\
  (truthy (Form.salary d) = false -> Payload.salary p = VNull) /\
  (Form.salary d = VStr [] -> Payload.salary p = VNull) /\
  (truthy (Form.salary d) = true ->
     Payload.salary p = VNum (parseFloat (Form.salary d))) /\
  (Payload.phone p <> VStr [] /\ Payload.department p <> VStr [] /\
   Payload.position p <> VStr [] /\ Payload.salary p <> VStr [] /\
   Payload.hire_date p <> VStr []) /\
  (succeeds env (issued w) req ->
     r.1 = Returned tt /\
     dashboard r.2 =
       mk_dashboard false None (refreshKey (dashboard w) + 1)
         (stats (dashboard w)) (searchResults (dashboard w)) /\
     trace r.2 =
       trace w ++
         [Call req;
          Toast success
            (match employee with
             | Some _ => lit "Employee updated successfully"
             | None => lit "Employee created successfully"
             end)] /\
     issued r.2 = S (issued w) /\
     search r.2 = search w) /\
  (Payload.employee_id p = Form.employee_id d /\
   Payload.first_name p = Form.first_name d /\
   Payload.last_name p = Form.last_name d /\
   Payload.email p = Form.email d /\
   Payload.is_active p = Form.is_active d) /\
  (Form.phone d <> [] -> Payload.phone p = VStr (Form.phone d)) /\
  (Form.department d <> [] ->
     Payload.department p = VStr (Form.department d)) /\
  (Form.position d <> [] -> Payload.position p = VStr (Form.position d)) /\
  (Form.hire_date d <> [] ->
     Payload.hire_date p = VStr (Form.hire_date d)) /\
  (forall n : N,
     Form.salary d = VStr (lit (pretty n)) ->
     Payload.salary p = VNum (Fin false n 0%Z)) /\
  (forall x : jsnum,
     Form.salary d = VNum x -> num_truthy x = true ->
     Payload.salary p = VNum x) /\
  (forall s : jsstring, Payload.salary p <> VStr s).
Proof.
  intros d p req r Hvalid.
  assert (req = first_call (Submit employee) w) as Hreq
    by (by destruct employee).
  assert (r = perform (Submit employee) env w) as Hr by reflexivity.
  rewrite (handleSubmit_run env w employee Hvalid) in Hr. rewrite <- Hreq in Hr.
  split; [rewrite Hreq; exact (handleSubmit_calls env w employee Hvalid) |].
  split; [by destruct employee |].
  clearbody req. subst p. unfold EmployeeForm.dataToSubmit.
  cbn [Payload.employee_id Payload.first_name Payload.last_name Payload.email
       Payload.phone Payload.department Payload.position Payload.salary
       Payload.hire_date Payload.is_active].
  do 4 (split; [by intros -> |]).
  split; [by intros -> |].
  split; [by intros -> |].
  split; [by intros -> |].
  split.
  { repeat split; try apply or_null_not_empty.
    by destruct (truthy (Form.salary d)). }
  split; [intros [x Hx]; rewrite Hr, Hx; done |].
  split; [done |].
  do 4 (split;
        [intros Hne; unfold EmployeeForm.or_null;
         match goal with |- context [str_truthy ?s] => by destruct s end |]).
  split.
  { intros n ->. destruct (pretty_digits n) as [Hne _].
    rewrite parseFloat_pretty. cbn [truthy].
    by destruct (lit (pretty n)). }
  split.
  { intros x -> Hx. cbn [truthy]. rewrite Hx. by destruct x. }
  intros s. by destruct (truthy (Form.salary d)).
Qed.

(** Two runs against a backend that answers, from a form opened with
    'Add Employee' and filled in: creating Ann Lee with every optional
    field left empty, and creating Bob Ray, whose salary
    [50000.50] is sent as the binary64 number of that value,
    [6872016393076736 * 2^-37], and whose empty position is sent as
    [null]. *)
Lemma valid_draft_is_normalized_and_sent_witness :
  (calls (trace (perform (Submit None) (online []) ann_open).2) =
     [createEmployee
        (Payload.mk (lit "E100") (lit "Ann") (lit "Lee") (lit "ann@x.com")
           VNull VNull VNull VNull VNull true)] /\
   toasts (trace (perform (Submit None) (online []) ann_open).2) =
     [(success, lit "Employee created successfully")] /\
   refreshKey (dashboard (perform (Submit None) (online []) ann_open).2) = 1 /\
   showForm (dashboard (perform (Submit None) (online []) ann_open).2) =
     false) /\
  (calls (trace (perform (Submit None) (online []) bob_open).2) =
     [createEmployee
        (Payload.mk (lit "E200") (lit "Bob") (lit "Ray") (lit "bob@x.com")
           (VStr (lit "555-0100")) (VStr (lit "Sales")) VNull
           (VNum (S754_finite false 6872016393076736 (-37)))
           (VStr (lit "2024-01-15")) true)] /\
   toasts (trace (perform (Submit None) (online []) bob_open).2) =
     [(success, lit "Employee created successfully")] /\
   refreshKey (dashboard (perform (Submit None) (online []) bob_open).2) = 1) /\
  formData (form bob_open) = bob /\ showForm (dashboard bob_open) = true.
Proof.
  split; [| split; [| by vm_compute]].
  - destruct (valid_draft_is_normalized_and_sent (online []) ann_open None)
      as (Hcalls & _ & _ & _ & _ & _ & _ & _ & _ & _ & Hok & _);
      [vm_compute; reflexivity |].
    split; [exact Hcalls |].
    destruct Hok as (_ & Hd & Ht & _); [eexists; reflexivity |].
    cbn [perform]. rewrite Hd, Ht. repeat split.
  - destruct (valid_draft_is_normalized_and_sent (online []) bob_open None)
      as (Hcalls & _ & _ & _ & _ & _ & _ & _ & _ & _ & Hok & _);
      [vm_compute; reflexivity |].
    split; [exact Hcalls |].
    destruct Hok as (_ & Hd & Ht & _); [eexists; reflexivity |].
    cbn [perform]. rewrite Hd, Ht. repeat split.
Defined.

(** C10. When a valid draft is submitted while the record [e] is being
    edited, the call is [updateEmployee(e.id, dataToSubmit)] and the payload
    still holds the draft's [employee_id], which is not blank and, for the
    seeded draft, is the record's own, together with the [is_active] flag.
    That the identifier cannot be edited comes from the [disabled] attribute
    of its input alone, which is set exactly when a record is being
    edited. *)
Theorem update_payload_keeps_employee_id (env : Env) (w : World) (e : Emp.t) :
  let d := formData (form w) in
  let p := EmployeeForm.dataToSubmit d in
  let r :=
    EmployeeForm.handleSubmit (Some e)
      Dashboard.handleCloseForm Dashboard.handleFormSuccess env w in
  EmployeeForm.newErrors d = ∅ ->
  calls (trace r.2) = calls (trace w) ++ [updateEmployee (Emp.id e) p] /\
  data (wire (updateEmployee (Emp.id e) p)) = Some p /\
  Payload.employee_id p = Form.employee_id d /\
  blank (Payload.employee_id p) = false /\
  Payload.is_active p = Form.is_active d /\
  (d = EmployeeForm.seed e ->
     Payload.employee_id p = EmployeeForm.or_empty (Emp.employee_id e)) /\
  EmployeeForm.employee_id_disabled (Some e) = true /\
  EmployeeForm.employee_id_disabled None = false.
Proof.
  intros d p r Hvalid.
  split; [exact (handleSubmit_calls env w (Some e) Hvalid) |].
  split; [reflexivity |].
  split; [reflexivity |].
  split; [apply newErrors_empty in Hvalid; tauto |].
  split; [reflexivity |].
  split; [by intros -> | split; reflexivity].
Qed.

(** Editing Jane Doe without touching the seeded draft. *)
Lemma update_payload_keeps_employee_id_witness :
  exists p,
    calls (trace (perform (Submit (Some jane)) (online []) jane_world).2) =
      [updateEmployee 7 p] /\
    Payload.employee_id p = lit "E007" /\
    Payload.is_active p = true /\
    Payload.salary p = VNum (Fin false 50000 0%Z) /\
    Payload.phone p = VNull.
Proof.
  destruct (update_payload_keeps_employee_id (online []) jane_world jane)
    as (Hcalls & _ & Hid & _ & Hact & _); [vm_compute; reflexivity |].
  eexists. split; [exact Hcalls |].
  split; [exact Hid |]. split; [exact Hact |]. split; reflexivity.
Defined.

(** ** Searching *)

Lemma trim_nil s : trim s = [] <-> blank s = true.
Proof.
  pose proof (trim_truthy s) as T. split; intros H.
  - rewrite H in T. by destruct (blank s).
  - by apply trim_blank.
Qed.

Lemma trim_not_nil s : trim s <> [] <-> blank s = false.
Proof. rewrite trim_nil. by destruct (blank s). Qed.

Lemma handleSearch_run env w :
  Dashboard.search_handleSearch env w =
    (Returned tt,
     if blank (searchTerm (search w)) then
       mk_world (dashboard w) (form w) (elist w) (search w)
         (trace w ++ [Toast info (lit "Please enter a search term")])
         (issued w)
     else
       match server env (issued w) (searchEmployees (searchTerm (search w))) with
       | inr results =>
           mk_world
             (mk_dashboard (showForm (dashboard w))
                (selectedEmployee (dashboard w)) (refreshKey (dashboard w))
                (stats (dashboard w)) (Some results))
             (form w) (elist w)
             (mk_search (searchTerm (search w)) false)
             (trace w ++
                [Call (searchEmployees (searchTerm (search w)));
                 if bool_decide (length results = 0%nat)
                 then Toast info (lit "No employees found matching your search")
                 else Toast success
                        (lit "Found " ++ show_nat (length results)
                           ++ lit " employee(s)")])
             (S (issued w))
       | inl e =>
           mk_world (dashboard w) (form w) (elist w)
             (mk_search (searchTerm (search w)) false)
             (trace w ++
                [Call (searchEmployees (searchTerm (search w)));
                 ConsoleError (lit "Error searching employees:") e;
                 Toast error (lit "Failed to search employees")])
             (S (issued w))
       end).
Proof.
  unfold Dashboard.search_handleSearch, SearchBar.handleSearch,
    SearchBar.setLoading, Dashboard.handleSearchResults,
    Dashboard.setSearchResults.
  step. rewrite trim_truthy, negb_involutive.
  destruct (blank (searchTerm (search w))); step; [reflexivity |].
  destruct (server env (issued w) _) as [e | results]; step;
    [tidy; reflexivity |].
  destruct (bool_decide (length results = 0%nat)); step; tidy; reflexivity.
Qed.

(** C5. [handleSearch], mounted by the dashboard.  When the trimmed query
    is empty, the only effect is the notification 'Please enter a search
    term': no gateway call.  Otherwise [searchEmployees] is called once;
    an empty result is forwarded to the dashboard with the notification
    'No employees found matching your search', a non-empty result is
    forwarded as it is with the success notification 'Found n employee(s)'
    bearing its length, and when the call fails the failure notification
    is shown and the results the dashboard holds are left as they were. *)
Theorem search_reports_and_forwards (env : Env) (w : World) :
  let q := searchTerm (search w) in
  let r := Dashboard.search_handleSearch env w in
  (trim q = [] ->
     r = (Returned tt,
          mk_world (dashboard w) (form w) (elist w) (search w)
            (trace w ++ [Toast info (lit "Please enter a search term")])
            (issued w))) /\
  (trim q <> [] -> server env (issued w) (searchEmployees q) = inr [] ->
     searchResults (dashboard r.2) = Some [] /\
     trace r.2 =
       trace w ++
         [Call (searchEmployees q);
          Toast info (lit "No employees found matching your search")]) /\
  (forall results : list Emp.t,
     trim q <> [] -> results <> [] ->
     server env (issued w) (searchEmployees q) = inr results ->
     searchResults (dashboard r.2) = Some results /\
     trace r.2 =
       trace w ++
         [Call (searchEmployees q);
          Toast success
            (lit "Found " ++ show_nat (length results) ++ lit " employee(s)")]) /\
  (forall e : failure,
     trim q <> [] -> server env (issued w) (searchEmployees q) = inl e ->
     r.1 = Returned tt /\
     dashboard r.2 = dashboard w /\
     trace r.2 =
       trace w ++
         [Call (searchEmployees q);
          ConsoleError (lit "Error searching employees:") e;
          Toast error (lit "Failed to search employees")]).
Proof.
  intros q r. subst r. rewrite handleSearch_run. fold q. cbn [fst snd].
  split; [| split; [| split]].
  - intros ->%trim_nil. reflexivity.
  - intros ->%trim_not_nil ->. by cbn.
  - intros results ->%trim_not_nil Hne ->. cbn [dashboard searchResults trace].
    rewrite bool_decide_eq_false_2; [done |]. by destruct results.
  - intros e ->%trim_not_nil ->. by cbn.
Qed.

(** The four cases: the empty query, a search for ["doe"] that finds
    nothing, one that finds Jane Doe, and one that fails. *)
Lemma search_reports_and_forwards_witness :
  trace (Dashboard.search_handleSearch (online [jane]) initial_world).2 =
    [Toast info (lit "Please enter a search term")] /\
  (searchResults
     (dashboard (Dashboard.search_handleSearch (online []) doe_world).2) =
     Some [] /\
   toasts (trace (Dashboard.search_handleSearch (online []) doe_world).2) =
     [(info, lit "No employees found matching your search")]) /\
  (searchResults
     (dashboard (Dashboard.search_handleSearch (online [jane]) doe_world).2) =
     Some [jane] /\
   toasts (trace (Dashboard.search_handleSearch (online [jane]) doe_world).2) =
     [(success, lit "Found 1 employee(s)")]) /\
  (searchResults
     (dashboard (Dashboard.search_handleSearch offline doe_world).2) = None /\
   toasts (trace (Dashboard.search_handleSearch offline doe_world).2) =
     [(error, lit "Failed to search employees")]).
Proof.
  destruct (search_reports_and_forwards (online [jane]) initial_world)
    as (H1 & _).
  destruct (search_reports_and_forwards (online []) doe_world)
    as (_ & H2 & _).
  destruct (search_reports_and_forwards (online [jane]) doe_world)
    as (_ & _ & H3 & _).
  destruct (search_reports_and_forwards offline doe_world)
    as (_ & _ & _ & H4).
  split; [rewrite H1; reflexivity |].
  split.
  { destruct H2 as [Hres Htr]; [discriminate | reflexivity |].
    rewrite Hres, Htr. split; reflexivity. }
  split.
  { destruct (H3 [jane]) as [Hres Htr];
      [discriminate | discriminate | reflexivity |].
    rewrite Hres, Htr. split; reflexivity. }
  destruct (H4 TransportError) as (_ & Hd & Htr);
    [discriminate | reflexivity |].
  rewrite Hd, Htr. split; reflexivity.
Defined.

(** C9. When the trimmed query is not empty, the search term handed to
    [searchEmployees], and from there to the [q] parameter of the HTTP
    request, is the query as typed: trimming serves the emptiness test
    only. *)
Theorem search_sends_untrimmed_query (env : Env) (w : World) :
  let q := searchTerm (search w) in
  trim q <> [] ->
  calls (trace (Dashboard.search_handleSearch env w).2) =
    calls (trace w) ++ [searchEmployees q] /\
  wire (searchEmployees q) =
    mk_http GET (lit "/api/employees/search") {[ "q" := VStr q ]} None /\
  query (wire (searchEmployees q)) !! "q" = Some (VStr q).
Proof.
  intros q Hq. apply trim_not_nil in Hq.
  rewrite handleSearch_run. fold q. rewrite Hq. cbn [snd].
  split; [| split; [reflexivity | apply lookup_singleton_eq]].
  destruct (server env (issued w) _) as [e | results]; cbn [trace];
    rewrite calls_app; [done |].
  by destruct (bool_decide (length results = 0%nat)).
Qed.

(** The query [" doe "] is sent with its spaces, although its trimmed form
    is ["doe"]. *)
Lemma search_sends_untrimmed_query_witness :
  trim (lit " doe ") = lit "doe" /\
  calls (trace (Dashboard.search_handleSearch (online [jane])
                  spaced_doe_world).2) =
    [searchEmployees (lit " doe ")] /\
  query (wire (searchEmployees (lit " doe "))) !! "q" = Some (VStr (lit " doe ")).
Proof.
  destruct (search_sends_untrimmed_query (online [jane]) spaced_doe_world)
    as (H1 & _ & H3);
    [discriminate |].
  split; [reflexivity |]. split; [exact H1 | exact H3].
Defined.

(** ** Deleting and toggling *)

Lemma handleDelete_run env w id employeeName :
  EmployeeList.handleDelete id employeeName env w =
    (Returned tt,
     if window_confirm env (delete_prompt employeeName) then
       match server env (issued w) (deleteEmployee id) with
       | inr _ =>
           (EmployeeList.fetchEmployees env
              (mk_world (dashboard w) (form w) (elist w) (search w)
                 (trace w ++
                    [Confirm (delete_prompt employeeName);
                     Call (deleteEmployee id);
                     Toast success (lit "Employee deleted successfully")])
                 (S (issued w)))).2
       | inl e =>
           mk_world (dashboard w) (form w) (elist w) (search w)
             (trace w ++
                [Confirm (delete_prompt employeeName);
                 Call (deleteEmployee id);
                 ConsoleError (lit "Error deleting employee:") e;
                 Toast error (lit "Failed to delete employee")])
             (S (issued w))
       end
     else
       mk_world (dashboard w) (form w) (elist w) (search w)
         (trace w ++ [Confirm (delete_prompt employeeName)]) (issued w)).
Proof.
  unfold EmployeeList.handleDelete. fold (delete_prompt employeeName). step.
  destruct (window_confirm env (delete_prompt employeeName)); step;
    [| reflexivity].
  destruct (server env (issued w) _) as [e | x]; step; tidy; reflexivity.
Qed.

Lemma handleToggleStatus_run env w id currentStatus employeeName :
  EmployeeList.handleToggleStatus id currentStatus employeeName env w =
    (Returned tt,
     match
       server env (issued w) (first_call (Toggle id currentStatus employeeName) w)
     with
     | inr _ =>
         (EmployeeList.fetchEmployees env
            (mk_world (dashboard w) (form w) (elist w) (search w)
               (trace w ++
                  [Call (first_call (Toggle id currentStatus employeeName) w);
                   Toast success
                     (employeeName ++
                        (if currentStatus then lit " deactivated"
                         else lit " activated"))])
               (S (issued w)))).2
     | inl e =>
         mk_world (dashboard w) (form w) (elist w) (search w)
           (trace w ++
              [Call (first_call (Toggle id currentStatus employeeName) w);
               ConsoleError (lit "Error toggling status:") e;
               Toast error (lit "Failed to update status")])
           (S (issued w))
     end).
Proof.
  unfold EmployeeList.handleToggleStatus.
  destruct currentStatus; cbn [first_call]; step;
    destruct (server env (issued w) _) as [e | x]; step; tidy; reflexivity.
Qed.

(** The notifications a re-fetch adds to the trace. *)
Lemma fetchEmployees_toasts env w :
  toasts (trace (EmployeeList.fetchEmployees env w).2) =
    toasts (trace w) ++
      match
        server env (issued w)
          (getAllEmployees (EmployeeList.params (filters (elist w))))
      with
      | inr _ => []
      | inl _ => [(error, lit "Failed to fetch employees")]
      end.
Proof.
  rewrite fetchEmployees_run. cbn [snd].
  destruct (server env (issued w) _); cbn [trace]; by rewrite toasts_app.
Qed.

(** C7. [handleDelete] first asks for confirmation.  When the user
    declines, nothing but the prompt happened: no gateway call, every
    component state as before.  When the user confirms, exactly one
    [deleteEmployee(id)] is issued; if it succeeds, the success notification
    is shown and [fetchEmployees] runs once, so that the calls are the
    deletion followed by one list request; if it fails, the failure
    notification is shown, no re-fetch is issued and no component state
    changes. *)
Theorem delete_is_gated_by_confirmation
    (env : Env) (w : World) (id : N) (employeeName : jsstring) :
  let prompt := delete_prompt employeeName in
  let refetch := getAllEmployees (EmployeeList.params (filters (elist w))) in
  let r := EmployeeList.handleDelete id employeeName env w in
  (window_confirm env prompt = false ->
     r = (Returned tt,
          mk_world (dashboard w) (form w) (elist w) (search w)
            (trace w ++ [Confirm prompt]) (issued w))) /\
  (window_confirm env prompt = true ->
   succeeds env (issued w) (deleteEmployee id) ->
     r.1 = Returned tt /\
     calls (trace r.2) = calls (trace w) ++ [deleteEmployee id; refetch] /\
     toasts (trace r.2) =
       toasts (trace w) ++
         (success, lit "Employee deleted successfully") ::
         match server env (S (issued w)) refetch with
         | inr _ => []
         | inl _ => [(error, lit "Failed to fetch employees")]
         end /\
     r.2 =
       (EmployeeList.fetchEmployees env
          (mk_world (dashboard w) (form w) (elist w) (search w)
             (trace w ++
                [Confirm prompt; Call (deleteEmployee id);
                 Toast success (lit "Employee deleted successfully")])
             (S (issued w)))).2) /\
  (forall e : failure,
     window_confirm env prompt = true ->
     server env (issued w) (deleteEmployee id) = inl e ->
     r = (Returned tt,
          mk_world (dashboard w) (form w) (elist w) (search w)
            (trace w ++
               [Confirm prompt; Call (deleteEmployee id);
                ConsoleError (lit "Error deleting employee:") e;
                Toast error (lit "Failed to delete employee")])
            (S (issued w)))).
Proof.
  intros prompt refetch r. subst r. rewrite handleDelete_run. fold prompt.
  split; [| split].
  - by intros ->.
  - intros -> [x ->]. cbn [fst snd]. split; [done |].
    rewrite fetchEmployees_calls, fetchEmployees_toasts. cbn [trace issued elist].
    rewrite calls_app, toasts_app. cbn. fold refetch.
    rewrite <- !app_assoc. done.
  - by intros e -> ->.
Qed.

(** Declining, confirming against a backend that answers, and confirming
    against one that rejects the deletion. *)
Lemma delete_is_gated_by_confirmation_witness :
  (EmployeeList.handleDelete 7 (lit "Jane Doe") offline initial_world).2 =
    mk_world (dashboard initial_world) (form initial_world)
      (elist initial_world) (search initial_world)
      [Confirm (lit "Are you sure you want to delete Jane Doe?")] 0 /\
  calls (trace (EmployeeList.handleDelete 7 (lit "Jane Doe") (online [])
                  initial_world).2) =
    [deleteEmployee 7; getAllEmployees ∅] /\
  trace (EmployeeList.handleDelete 7 (lit "Jane Doe") (rejecting 404 None)
           initial_world).2 =
    [Confirm (lit "Are you sure you want to delete Jane Doe?");
     Call (deleteEmployee 7);
     ConsoleError (lit "Error deleting employee:") (RemoteError 404 None);
     Toast error (lit "Failed to delete employee")].
Proof.
  destruct (delete_is_gated_by_confirmation offline initial_world 7
              (lit "Jane Doe")) as (H1 & _).
  destruct (delete_is_gated_by_confirmation (online []) initial_world 7
              (lit "Jane Doe")) as (_ & H2 & _).
  destruct (delete_is_gated_by_confirmation (rejecting 404 None) initial_world 7
              (lit "Jane Doe")) as (_ & _ & H3).
  split; [rewrite H1; reflexivity |].
  split.
  { destruct H2 as (_ & Hcalls & _); [reflexivity | eexists; reflexivity |].
    rewrite Hcalls. reflexivity. }
  rewrite (H3 (RemoteError 404 None)); reflexivity.
Defined.

(** C8. [handleToggleStatus] calls [deactivateEmployee(id)] when the
    current status is true and [activateEmployee(id)] when it is false.
    When the call succeeds the notification is the employee's name followed
    by 'deactivated' in the first case and by 'activated' in the second, and
    [fetchEmployees] runs once; when it fails the only notification is
    'Failed to update status' and no re-fetch is issued. *)
Theorem toggle_calls_the_opposite_status
    (env : Env) (w : World) (id : N) (currentStatus : bool)
    (employeeName : jsstring) :
  let req :=
    if currentStatus then deactivateEmployee id else activateEmployee id in
  let message :=
    employeeName ++
      (if currentStatus then lit " deactivated" else lit " activated") in
  let refetch := getAllEmployees (EmployeeList.params (filters (elist w))) in
  let r := EmployeeList.handleToggleStatus id currentStatus employeeName env w in
  (succeeds env (issued w) req ->
     r.1 = Returned tt /\
     calls (trace r.2) = calls (trace w) ++ [req; refetch] /\
     toasts (trace r.2) =
       toasts (trace w) ++
         (success, message) ::
         match server env (S (issued w)) refetch with
         | inr _ => []
         | inl _ => [(error, lit "Failed to fetch employees")]
         end /\
     r.2 =
       (EmployeeList.fetchEmployees env
          (mk_world (dashboard w) (form w) (elist w) (search w)
             (trace w ++ [Call req; Toast success message])
             (S (issued w)))).2) /\
  (forall e : failure,
     server env (issued w) req = inl e ->
     r = (Returned tt,
          mk_world (dashboard w) (form w) (elist w) (search w)
            (trace w ++
               [Call req;
                ConsoleError (lit "Error toggling status:") e;
                Toast error (lit "Failed to update status")])
            (S (issued w)))).
Proof.
  intros req message refetch r. subst r. rewrite handleToggleStatus_run.
  change (first_call (Toggle id currentStatus employeeName) w) with req.
  fold message. split.
  - intros [x ->]. cbn [fst snd]. split; [done |].
    rewrite fetchEmployees_calls, fetchEmployees_toasts. cbn [trace issued elist].
    rewrite calls_app, toasts_app. cbn. fold refetch.
    rewrite <- !app_assoc. done.
  - by intros e ->.
Qed.

(** The scenario of the specification: toggling the active Jane Doe and an
    inactive one, and a toggle that the backend rejects. *)
Lemma toggle_calls_the_opposite_status_witness :
  (calls (trace (EmployeeList.handleToggleStatus 7 true (lit "Jane Doe")
                   (online []) initial_world).2) =
     [deactivateEmployee 7; getAllEmployees ∅] /\
   toasts (trace (EmployeeList.handleToggleStatus 7 true (lit "Jane Doe")
                    (online []) initial_world).2) =
     [(success, lit "Jane Doe deactivated")]) /\
  toasts (trace (EmployeeList.handleToggleStatus 7 false (lit "Jane Doe")
                   (online []) initial_world).2) =
    [(success, lit "Jane Doe activated")] /\
  toasts (trace (EmployeeList.handleToggleStatus 7 true (lit "Jane Doe")
                   offline initial_world).2) =
    [(error, lit "Failed to update status")].
Proof.
  destruct (toggle_calls_the_opposite_status (online []) initial_world 7 true
              (lit "Jane Doe")) as ((_ & H1 & H2 & _) & _);
    [eexists; reflexivity |].
  destruct (toggle_calls_the_opposite_status (online []) initial_world 7 false
              (lit "Jane Doe")) as ((_ & _ & H3 & _) & _);
    [eexists; reflexivity |].
  destruct (toggle_calls_the_opposite_status offline initial_world 7 true
              (lit "Jane Doe")) as (_ & H4).
  split; [split; [rewrite H1 | rewrite H2]; reflexivity |].
  split; [rewrite H3; reflexivity |].
  rewrite (H4 TransportError); reflexivity.
Defined.

(** ** Failures of the gateway *)

Lemma fetchStats_run env w :
  Dashboard.fetchStats env w =
    (Returned tt,
     let all := getAllEmployees ∅ in
     let active := getAllEmployees {[ "is_active" := VBool true ]} in
     let inactive := getAllEmployees {[ "is_active" := VBool false ]} in
     let failed (events : list event) (n : nat) :=
       mk_world (dashboard w) (form w) (elist w) (search w)
         (trace w ++ events) n in
     match server env (issued w) all with
     | inl e =>
         failed [Call all; ConsoleError (lit "Error fetching stats:") e]
           (S (issued w))
     | inr allData =>
         match server env (S (issued w)) active with
         | inl e =>
             failed
               [Call all; Call active;
                ConsoleError (lit "Error fetching stats:") e]
               (S (S (issued w)))
         | inr activeData =>
             match server env (S (S (issued w))) inactive with
             | inl e =>
                 failed
                   [Call all; Call active; Call inactive;
                    ConsoleError (lit "Error fetching stats:") e]
                   (S (S (S (issued w))))
             | inr inactiveData =>
                 mk_world
                   (mk_dashboard (showForm (dashboard w))
                      (selectedEmployee (dashboard w))
                      (refreshKey (dashboard w))
                      (Stats.mk (Dashboard.total_or_zero allData)
                         (Dashboard.total_or_zero activeData)
                         (Dashboard.total_or_zero inactiveData))
                      (searchResults (dashboard w)))
                   (form w) (elist w) (search w)
                   (trace w ++ [Call all; Call active; Call inactive])
                   (S (S (S (issued w))))
             end
         end
     end).
Proof.
  unfold Dashboard.fetchStats, Dashboard.setStats. step.
  destruct (server env (issued w) _) as [e | allData]; step;
    [tidy; reflexivity |].
  destruct (server env (S (issued w)) _) as [e | activeData]; step;
    [tidy; reflexivity |].
  destruct (server env (S (S (issued w))) _) as [e | inactiveData]; step;
    tidy; reflexivity.
Qed.

(** Whatever the backend answers, [fetchStats] shows no notification, and
    the statistics change only when the three calls succeed. *)
Lemma fetchStats_never_notifies env w :
  toasts (trace (Dashboard.fetchStats env w).2) = toasts (trace w).
Proof.
  rewrite fetchStats_run. cbn [snd]. cbv zeta.
  repeat case_match; cbn [trace]; rewrite toasts_app; cbn;
    by rewrite app_nil_r.
Qed.

Lemma fetchStats_keeps_stats_on_failure env w :
  stats (dashboard (Dashboard.fetchStats env w).2) <> stats (dashboard w) ->
  succeeds env (issued w) (getAllEmployees ∅) /\
  succeeds env (S (issued w)) (getAllEmployees {[ "is_active" := VBool true ]}) /\
  succeeds env (S (S (issued w)))
    (getAllEmployees {[ "is_active" := VBool false ]}).
Proof.
  rewrite fetchStats_run. cbn [snd]. cbv zeta. unfold succeeds.
  repeat case_match; cbn [dashboard stats]; intros Hneq; try done.
  repeat split; eexists; reflexivity.
Qed.

(** No operation lets an exception escape, whatever the backend answers
    and whatever state it starts from. *)
Lemma perform_returns op env w : (perform op env w).1 = Returned tt.
Proof.
  destruct op as [employee | | id name | id status name | |].
  - destruct (decide (EmployeeForm.newErrors (formData (form w)) = ∅))
      as [Hvalid | Hinvalid].
    + by rewrite (handleSubmit_run env w employee Hvalid).
    + cbn [perform]. unfold EmployeeForm.handleSubmit. step.
      rewrite validateForm_run.
      by rewrite (bool_decide_eq_false_2 _ Hinvalid).
  - cbn [perform]. by rewrite fetchEmployees_run.
  - cbn [perform]. by rewrite handleDelete_run.
  - cbn [perform]. by rewrite handleToggleStatus_run.
  - cbn [perform]. by rewrite handleSearch_run.
  - cbn [perform]. by rewrite fetchStats_run.
Qed.

(** C4, as stated, fails for the dashboard's [fetchStats]: when the
    backend cannot be reached its first call fails, the error is caught and
    written to the console, and no notification at all is shown. *)
Lemma fetchStats_failure_shows_no_notification :
  reaches_gateway FetchStats offline initial_world /\
  server offline (issued initial_world) (first_call FetchStats initial_world)
    = inl TransportError /\
  trace (perform FetchStats offline initial_world).2 =
    [Call (getAllEmployees ∅);
     ConsoleError (lit "Error fetching stats:") TransportError] /\
  toasts (trace (perform FetchStats offline initial_world).2) = [] /\
  length (toasts (trace (perform FetchStats offline initial_world).2))
    <> 1%nat.
Proof.
  cbn [perform]. rewrite fetchStats_run.
  split; [exact I |]. split; [reflexivity |].
  split; [reflexivity |]. split; [reflexivity |]. cbn. lia.
Qed.

(** C4, amended. When an operation of the form, the list or the search
    bar reaches the gateway and its call fails, the error is caught where
    the call is made: the handler returns normally, no further call is
    issued, exactly one notification, an error, is shown, and what is
    displayed stays in place: the whole dashboard state (statistics, search
    results, the open form), the draft, the record collection, the filters
    and the query.  The dashboard's [fetchStats] catches the error in the
    same way and leaves the statistics in place, but only writes to the
    console: it shows no notification. *)
Theorem gateway_failure_is_contained
    (op : operation) (env : Env) (w : World) (e : failure) :
  let r := perform op env w in
  reaches_gateway op env w ->
  server env (issued w) (first_call op w) = inl e ->
  r.1 = Returned tt /\
  calls (trace r.2) = calls (trace w) ++ [first_call op w] /\
  toasts (trace r.2) =
    toasts (trace w) ++
      match op with
      | Submit _ =>
          [(error,
            str_or (EmployeeForm.detail_of e) (lit "Failed to save employee"))]
      | Fetch => [(error, lit "Failed to fetch employees")]
      | Delete _ _ => [(error, lit "Failed to delete employee")]
      | Toggle _ _ _ => [(error, lit "Failed to update status")]
      | Search => [(error, lit "Failed to search employees")]
      | FetchStats => []
      end /\
  dashboard r.2 = dashboard w /\
  formData (form r.2) = formData (form w) /\
  employees (elist r.2) = employees (elist w) /\
  filters (elist r.2) = filters (elist w) /\
  searchTerm (search r.2) = searchTerm (search w).
Proof.
  intros r Hreach Hfail. subst r.
  destruct op as [employee | | id name | id status name | |];
    cbn [perform reaches_gateway] in *.
  - change (EmployeeForm.handleSubmit employee Dashboard.handleCloseForm
              Dashboard.handleFormSuccess)
      with (perform (Submit employee)).
    rewrite (handleSubmit_run env w employee Hreach), Hfail.
    cbn [fst snd trace dashboard form elist search formData employees filters
         searchTerm].
    rewrite calls_app, toasts_app. done.
  - cbn [first_call] in Hfail. rewrite fetchEmployees_run, Hfail.
    cbn [fst snd trace dashboard form elist search formData employees filters
         searchTerm].
    rewrite calls_app, toasts_app. done.
  - cbn [first_call] in Hfail. rewrite handleDelete_run, Hreach, Hfail.
    cbn [fst snd trace dashboard form elist search formData employees filters
         searchTerm].
    rewrite calls_app, toasts_app. done.
  - rewrite handleToggleStatus_run, Hfail.
    cbn [fst snd trace dashboard form elist search formData employees filters
         searchTerm].
    rewrite calls_app, toasts_app. done.
  - cbn [first_call] in Hfail. rewrite handleSearch_run, Hreach, Hfail.
    cbn [fst snd trace dashboard form elist search formData employees filters
         searchTerm].
    rewrite calls_app, toasts_app. done.
  - cbn [first_call] in Hfail. rewrite fetchStats_run. cbv zeta. rewrite Hfail.
    cbn [fst snd trace dashboard form elist search formData employees filters
         searchTerm].
    rewrite calls_app, toasts_app. cbn. by rewrite app_nil_r.
Qed.

(** Saving Ann Lee against a backend that answers 409 with a detail, and
    a refresh of the list and of the statistics while offline. *)
Lemma gateway_failure_is_contained_witness :
  (toasts (trace (perform (Submit None) conflict ann_world).2) =
     [(error, lit "Employee ID already exists")] /\
   formData (form (perform (Submit None) conflict ann_world).2) = ann) /\
  (toasts (trace (perform Fetch offline ann_world).2) =
     [(error, lit "Failed to fetch employees")] /\
   employees (elist (perform Fetch offline ann_world).2) = []) /\
  (toasts (trace (perform FetchStats offline ann_world).2) = [] /\
   stats (dashboard (perform FetchStats offline ann_world).2) = Stats.initial).
Proof.
  destruct (gateway_failure_is_contained (Submit None) conflict ann_world
              (RemoteError 409 (Some (lit "Employee ID already exists"))))
    as (_ & _ & H1 & _ & H2 & _); [vm_compute; reflexivity | reflexivity |].
  destruct (gateway_failure_is_contained Fetch offline ann_world
              TransportError)
    as (_ & _ & H3 & _ & _ & H4 & _); [exact I | reflexivity |].
  destruct (gateway_failure_is_contained FetchStats offline ann_world
              TransportError)
    as (_ & _ & H5 & H6 & _); [exact I | reflexivity |].
  split; [split; [rewrite H1; reflexivity | rewrite H2; reflexivity] |].
  split; [split; [rewrite H3; reflexivity | rewrite H4; reflexivity] |].
  split; [rewrite H5; reflexivity | rewrite H6; reflexivity].
Defined.

(** * Further properties of the components *)

(** ** The department options of the list *)

#[global] Instance str_le_total : Total EmployeeList.str_le.
Proof.
  unfold Total, EmployeeList.str_le. intros a.
  induction a as [|x a IH]; intros [|y b]; simpl; auto.
  destruct (N.ltb_spec x y), (N.ltb_spec y x), (N.eqb_spec x y),
    (N.eqb_spec y x); simpl; auto; try lia.
Qed.

#[global] Instance str_le_trans : Transitive EmployeeList.str_le.
Proof.
  unfold Transitive, EmployeeList.str_le. intros a.
  induction a as [|x a IH]; intros [|y b] [|z c]; simpl; auto; try discriminate.
  intros Hab Hbc.
  apply orb_true_iff in Hab as [Hxy%N.ltb_lt | [->%N.eqb_eq Hab]%andb_prop];
    apply orb_true_iff in Hbc as [Hyz%N.ltb_lt | [->%N.eqb_eq Hbc]%andb_prop];
    apply orb_true_iff.
  - left. apply N.ltb_lt. lia.
  - left. by apply N.ltb_lt.
  - left. by apply N.ltb_lt.
  - right. rewrite N.eqb_refl. simpl. eauto.
Qed.

#[global] Instance str_le_antisym : AntiSymm (=) EmployeeList.str_le.
Proof.
  unfold AntiSymm, EmployeeList.str_le. intros a.
  induction a as [|x a IH]; intros [|y b]; simpl; auto; try discriminate.
  intros Hab Hba.
  apply orb_true_iff in Hab as [Hxy%N.ltb_lt | [->%N.eqb_eq Hab]%andb_prop];
    apply orb_true_iff in Hba as [Hyx%N.ltb_lt | [E%N.eqb_eq Hba]%andb_prop];
    try lia.
  f_equal. auto.
Qed.

Lemma uniq_elem_of l s : s ∈ EmployeeList.uniq l <-> s ∈ l.
Proof.
  induction l as [|x l IH]; simpl; [done |].
  rewrite !elem_of_cons, list_elem_of_filter, IH.
  destruct (decide (s = x)) as [-> |]; tauto.
Qed.

Lemma uniq_NoDup l : NoDup (EmployeeList.uniq l).
Proof.
  induction l as [|x l IH]; simpl; constructor.
  - rewrite list_elem_of_filter. tauto.
  - by apply NoDup_filter.
Qed.

(** X1. The department options of the filter are in ascending order of
    their code units, hold no value twice, and are exactly the non-empty
    departments of the employees that are loaded: a missing or empty
    department gives no option. *)
Theorem department_options_sorted_and_exact (employees : list Emp.t) :
  let options := EmployeeList.getDepartments employees in
  StronglySorted EmployeeList.str_le options /\
  NoDup options /\
  forall s : jsstring,
    s ∈ options <->
    s <> [] /\ exists emp, emp ∈ employees /\ Emp.department emp = Some s.
Proof.
  intros options. subst options. unfold EmployeeList.getDepartments.
  split; [apply StronglySorted_merge_sort; apply _ |].
  split.
  { rewrite merge_sort_Permutation. apply uniq_NoDup. }
  intros s. rewrite merge_sort_Permutation, uniq_elem_of, list_elem_of_omap.
  unfold EmployeeList.department_of. split.
  - intros (emp & Hin & Hd). destruct (Emp.department emp) as [t |] eqn:E;
      [| discriminate].
    destruct t as [| c t]; simpl in Hd; [discriminate |].
    injection Hd as <-. split; [done | eauto].
  - intros (Hne & emp & Hin & Hd). exists emp. split; [done |].
    rewrite Hd. by destruct s.
Qed.

(** ** What the list shows after a fetch *)

(** X2. After [fetchEmployees] the list never shows the spinner, whatever
    the backend answered.  A reply without employees, and a failed fetch
    while no employees are loaded, give the empty state, which has no
    filter controls, whatever filters are selected; the table with its
    filters is shown only for at least one row, with the filters that were
    selected and the department options of the rows. *)
Theorem list_view_after_fetch (env : Env) (w : World) :
  let req := getAllEmployees (EmployeeList.params (filters (elist w))) in
  let v := EmployeeList.render (elist (EmployeeList.fetchEmployees env w).2) in
  v <> EmployeeList.Spinner /\
  (forall data : Listing.t,
     server env (issued w) req = inr data ->
     default [] (Listing.employees data) = [] ->
     v = EmployeeList.EmptyState) /\
  (forall e : failure,
     server env (issued w) req = inl e -> employees (elist w) = [] ->
     v = EmployeeList.EmptyState) /\
  (forall options selected rows,
     v = EmployeeList.Table options selected rows ->
     rows <> [] /\ selected = filters (elist w) /\
     options = EmployeeList.getDepartments rows).
Proof.
  intros req v. subst v. rewrite fetchEmployees_run. fold req. cbn [snd].
  unfold EmployeeList.render.
  destruct (server env (issued w) req) as [e | data];
    cbn [elist list_loading employees filters].
  - split; [by case_bool_decide |].
    split; [discriminate |].
    split; [by intros ? _ -> |].
    intros options selected rows. case_bool_decide as Hlen; [discriminate |].
    intros [= <- <- <-]. split; [| done].
    intros E. by rewrite E in Hlen.
  - split; [by case_bool_decide |].
    split; [by intros ? [= <-] -> |].
    split; [discriminate |].
    intros options selected rows. case_bool_decide as Hlen; [discriminate |].
    intros [= <- <- <-]. split; [| done].
    intros E. by rewrite E in Hlen.
Qed.

(** A filter on a department nobody is in, and a first load that fails:
    both end in the empty state. *)
Lemma list_view_after_fetch_witness :
  EmployeeList.render
    (elist (EmployeeList.fetchEmployees (online [])
              (with_filters (Filters.mk (lit "Sales") []) initial_world)).2)
    = EmployeeList.EmptyState /\
  EmployeeList.render
    (elist (EmployeeList.fetchEmployees offline initial_world).2)
    = EmployeeList.EmptyState.
Proof.
  destruct (list_view_after_fetch (online [])
              (with_filters (Filters.mk (lit "Sales") []) initial_world))
    as (_ & H1 & _).
  destruct (list_view_after_fetch offline initial_world) as (_ & _ & H2 & _).
  split.
  - eapply H1; reflexivity.
  - eapply H2; reflexivity.
Defined.

(** X3. Changing a filter replaces that filter alone, and the fetch that
    follows sends the new selection: after a change of department the
    request carries the new department (no key for the empty choice) and
    the status key as before, and the same with the two exchanged. *)
Theorem filter_change_refetches (env : Env) (w : World) (value : jsstring) :
  let before := filters (elist w) in
  let by_department := Filters.mk value (Filters.is_active before) in
  let by_status := Filters.mk (Filters.department before) value in
  let r1 :=
    (EmployeeList.onDepartmentChange value ;; EmployeeList.useEffect_fetch)
      env w in
  let r2 :=
    (EmployeeList.onStatusChange value ;; EmployeeList.useEffect_fetch)
      env w in
  (filters (elist r1.2) = by_department /\
   calls (trace r1.2) =
     calls (trace w) ++ [getAllEmployees (EmployeeList.params by_department)] /\
   EmployeeList.params by_department !! "is_active" =
     EmployeeList.params before !! "is_active" /\
   EmployeeList.params by_department !! "department" =
     (if str_truthy value then Some (VStr value) else None)) /\
  (filters (elist r2.2) = by_status /\
   calls (trace r2.2) =
     calls (trace w) ++ [getAllEmployees (EmployeeList.params by_status)] /\
   EmployeeList.params by_status !! "department" =
     EmployeeList.params before !! "department" /\
   EmployeeList.params by_status !! "is_active" =
     (if bool_decide (value = []) then None
      else Some (VBool (bool_decide (value = lit "true"))))).
Proof.
  intros before by_department by_status r1 r2. subst r1 r2.
  unfold EmployeeList.onDepartmentChange, EmployeeList.onStatusChange,
    EmployeeList.useEffect_fetch, EmployeeList.setFilters.
  step. rewrite !fetchEmployees_run. cbn [snd elist filters issued trace].
  fold before. fold by_department. fold by_status.
  rewrite !params_department, !params_is_active.
  split; (split; [by destruct (server env _ _) |]);
    (split; [| done]);
    destruct (server env _ _); cbn [trace]; by rewrite calls_app.
Qed.

(** ** Editing the draft *)

Lemma handleChange_run env w e :
  EmployeeForm.handleChange e env w =
    (Returned tt,
     mk_world (dashboard w)
       (mk_form (EmployeeForm.set_field (formData (form w)) e)
          (form_loading (form w))
          (if bool_decide
                (is_Some
                   (EmployeeForm.shown_error (errors (form w))
                      (EmployeeForm.input_name (EmployeeForm.target e))))
           then <[EmployeeForm.input_name (EmployeeForm.target e) := []]>
                  (errors (form w))
           else errors (form w)))
       (elist w) (search w) (trace w) (issued w)).
Proof.
  unfold EmployeeForm.handleChange, EmployeeForm.setFormData,
    EmployeeForm.setErrors.
  step. case_bool_decide; step; [reflexivity |]. by destruct w as [? []].
Qed.

(** X4. A change of an input writes the reported value into the field of
    that input and into no other field, hides the message shown under that
    input and leaves the entry of every other key as it was, whether or not
    the new value is valid: nothing is validated again before the next
    submit.  It makes no gateway call, shows no notification and touches no
    other state. *)
Theorem change_edits_one_field_and_hides_its_error
    (env : Env) (w : World) (e : EmployeeForm.change) :
  let i := EmployeeForm.target e in
  let r := EmployeeForm.handleChange e env w in
  r.1 = Returned tt /\
  EmployeeForm.get_field i (formData (form r.2)) =
    (match i with
     | EmployeeForm.is_active_input => VBool (EmployeeForm.checked e)
     | _ => VStr (EmployeeForm.value e)
     end) /\
  (forall j, j <> i ->
     EmployeeForm.get_field j (formData (form r.2)) =
       EmployeeForm.get_field j (formData (form w))) /\
  EmployeeForm.shown_error (errors (form r.2)) (EmployeeForm.input_name i)
    = None /\
  (forall k, k <> EmployeeForm.input_name i ->
     errors (form r.2) !! k = errors (form w) !! k) /\
  form_loading (form r.2) = form_loading (form w) /\
  dashboard r.2 = dashboard w /\ elist r.2 = elist w /\
  search r.2 = search w /\ trace r.2 = trace w /\ issued r.2 = issued w.
Proof.
  intros i r. subst r. rewrite handleChange_run. fold i.
  cbn [fst snd form formData errors form_loading dashboard elist search trace
       issued].
  split; [done |].
  split; [unfold EmployeeForm.set_field; fold i; by destruct i |].
  split.
  { intros j Hj. unfold EmployeeForm.set_field. fold i.
    by destruct i, j. }
  split.
  { case_bool_decide as Hshown.
    - unfold EmployeeForm.shown_error. by rewrite lookup_insert_eq.
    - by apply eq_None_not_Some. }
  split; [| done].
  intros k Hk. case_bool_decide; [| done]. by rewrite lookup_insert_ne.
Qed.

(** ** The validator, once more *)

Lemma blank_app a b : blank (a ++ b) = blank a && blank b.
Proof. apply forallb_app. Qed.

(** X5. [validateForm] answers [true] exactly for the drafts in which
    [employee_id], [first_name] and [last_name] are not blank, the e-mail
    is not blank and has a part of the shape word [@] word [.] word, and
    the salary is not below zero; and the mapping it stores never has a
    key other than those five fields. *)
Theorem validateForm_accepts_exactly (env : Env) (w : World) :
  let d := formData (form w) in
  ((EmployeeForm.validateForm env w).1 = Returned true <->
   blank (Form.employee_id d) = false /\ blank (Form.first_name d) = false /\
   blank (Form.last_name d) = false /\ blank (Form.email d) = false /\
   email_shape (Form.email d) /\ lt_zero (Form.salary d) = false) /\
  (forall k, is_Some (errors (form (EmployeeForm.validateForm env w).2) !! k) ->
     k ∈ ["employee_id"; "first_name"; "last_name"; "email"; "salary"]).
Proof.
  intros d. rewrite validateForm_run. fold d. cbn [fst snd form errors].
  split; [| apply newErrors_keys].
  rewrite <- email_pattern_spec, <- newErrors_empty.
  split.
  - intros [= H]. by apply bool_decide_eq_true in H.
  - intros H. by rewrite bool_decide_eq_true_2.
Qed.

(** X6. The pattern is not anchored: when an e-mail is accepted, so is
    any text that contains it, whatever stands before and after. *)
Theorem accepted_email_stays_accepted_inside_text
    (d : Form.t) (before after : jsstring) :
  let d' :=
    EmployeeForm.set_field d
      (EmployeeForm.mk_change EmployeeForm.email_input
         (before ++ Form.email d ++ after) false) in
  EmployeeForm.newErrors d !! "email" = None ->
  EmployeeForm.newErrors d' !! "email" = None.
Proof.
  intros d'. rewrite !newErrors_email.
  subst d'. cbn [EmployeeForm.set_field EmployeeForm.target EmployeeForm.value
                 Form.email].
  rewrite !blank_app.
  destruct (blank (Form.email d)); [discriminate |].
  rewrite andb_false_l, andb_false_r.
  destruct (regex_test email_pattern (Form.email d)) eqn:Hre; [| discriminate].
  intros _.
  apply regex_test_spec in Hre as (a & p & b & E & Hp).
  assert (regex_test email_pattern (before ++ Form.email d ++ after) = true)
    as ->; [| done].
  apply regex_test_spec. exists (before ++ a), p, (b ++ after).
  split; [| done]. rewrite E, <- !app_assoc. done.
Qed.

(** The address of Ann Lee in the middle of a sentence is accepted. *)
Lemma accepted_email_stays_accepted_inside_text_witness :
  EmployeeForm.newErrors
    (EmployeeForm.set_field ann
       (EmployeeForm.mk_change EmployeeForm.email_input
          (lit "write to ann@x.com today") false)) !! "email" = None.
Proof.
  apply (accepted_email_stays_accepted_inside_text ann
           (lit "write to ") (lit " today")).
  vm_compute. reflexivity.
Defined.

(** ** Editing a record *)

(** X7. Saving a record as it was seeded sends its values back: the
    required fields as they are (the empty string for a missing one), a
    non-empty [phone], [department], [position] or [hire_date] as it is and
    a missing or empty one as [null], [is_active] as it is and [true] when
    the record has none, and a salary that is a truthy number as that
    number.  A salary that is falsy, zero included, is sent as [null]. *)
Theorem unchanged_edit_sends_record_back (e : Emp.t) :
  let p := EmployeeForm.dataToSubmit (EmployeeForm.seed e) in
  (forall f g,
     (f, g) ∈ [(Emp.employee_id, Payload.employee_id);
               (Emp.first_name, Payload.first_name);
               (Emp.last_name, Payload.last_name);
               (Emp.email, Payload.email)] ->
     g p = default [] (f e)) /\
  (forall f g,
     (f, g) ∈ [(Emp.phone, Payload.phone);
               (Emp.department, Payload.department);
               (Emp.position, Payload.position);
               (Emp.hire_date, Payload.hire_date)] ->
     g p = match f e with
           | Some (c :: s) => VStr (c :: s)
           | Some [] | None => VNull
           end) /\
  Payload.is_active p = default true (Emp.is_active e) /\
  (forall x, Emp.salary e = VNum x -> num_truthy x = true ->
     Payload.salary p = VNum x) /\
  (truthy (Emp.salary e) = false -> Payload.salary p = VNull) /\
  (forall neg ex, Emp.salary e = VNum (Fin neg 0 ex) ->
     Payload.salary p = VNull).
Proof.
  intros p. subst p.
  unfold EmployeeForm.dataToSubmit, EmployeeForm.seed, EmployeeForm.or_empty,
    EmployeeForm.or_null, str_or.
  split.
  { intros f g Hin.
    repeat (apply elem_of_cons in Hin as [[= -> ->] | Hin];
            [cbn;
             match goal with
             | |- context [match ?x with Some _ => _ | None => _ end] =>
                 by destruct x as [[| ? ?] |]
             end |]).
    by apply elem_of_nil in Hin. }
  split.
  { intros f g Hin.
    repeat (apply elem_of_cons in Hin as [[= -> ->] | Hin];
            [cbn;
             match goal with
             | |- context [match ?x with Some _ => _ | None => _ end] =>
                 by destruct x as [[| ? ?] |]
             end |]).
    by apply elem_of_nil in Hin. }
  split; [cbn; by destruct (Emp.is_active e) |].
  cbn [Payload.salary Form.salary].
  split.
  { intros x -> Hx. cbn [truthy]. rewrite Hx. cbn [truthy]. rewrite Hx.
    by destruct x. }
  split; [by intros -> |].
  by intros neg ex ->.
Qed.

(** Jane Doe, whose salary is 50000 and who has no phone; and the same
    record with salary 0. *)
Lemma unchanged_edit_sends_record_back_witness :
  Payload.salary (EmployeeForm.dataToSubmit (EmployeeForm.seed jane)) =
    VNum (Fin false 50000 0%Z) /\
  Payload.phone (EmployeeForm.dataToSubmit (EmployeeForm.seed jane)) = VNull /\
  Payload.department (EmployeeForm.dataToSubmit (EmployeeForm.seed jane)) =
    VStr (lit "Sales").
Proof.
  destruct (unchanged_edit_sends_record_back jane) as (_ & H2 & _ & H4 & _).
  split; [apply H4; reflexivity |].
  split.
  - apply (H2 Emp.phone Payload.phone). set_solver.
  - apply (H2 Emp.department Payload.department). set_solver.
Defined.

(** ** Saving again after a failure *)

(** X8. A save that fails leaves the form open with its draft, the
    selected record and the refresh key as they were, and releases the
    busy flag, so that the next submit sends the same request once more.
    If that one fails too the form is still open with the same draft; if
    it succeeds the form is dismissed and the refresh key advances once.
    The failure is reported by one error notification: it shows the
    detail of the reply when that is a non-empty string, and 'Failed to
    save employee' when the reply has no detail or an empty one, or when
    there was no reply. *)
Theorem failed_save_can_be_repeated (env : Env) (w : World) (e : failure) :
  let d := formData (form w) in
  let employee := selectedEmployee (dashboard w) in
  let req := first_call (Submit employee) w in
  let once := Dashboard.form_handleSubmit env w in
  let r := (Dashboard.form_handleSubmit ;; Dashboard.form_handleSubmit) env w in
  EmployeeForm.newErrors d = ∅ ->
  server env (issued w) req = inl e ->
  (exists message,
     toasts (trace once.2) = toasts (trace w) ++ [(error, message)] /\
     (forall status c s,
        e = RemoteError status (Some (c :: s)) -> message = c :: s) /\
     (forall status,
        e = RemoteError status (Some []) ->
        message = lit "Failed to save employee") /\
     (forall status,
        e = RemoteError status None ->
        message = lit "Failed to save employee") /\
     (e = TransportError -> message = lit "Failed to save employee")) /\
  (dashboard once.2 = dashboard w /\ formData (form once.2) = d /\
   form_loading (form once.2) = false) /\
  calls (trace once.2) = calls (trace w) ++ [req] /\
  calls (trace r.2) = calls (trace w) ++ [req; req] /\
  (forall e2 : failure,
     server env (S (issued w)) req = inl e2 ->
     dashboard r.2 = dashboard w /\ formData (form r.2) = d) /\
  (succeeds env (S (issued w)) req ->
     showForm (dashboard r.2) = false /\
     selectedEmployee (dashboard r.2) = None /\
     refreshKey (dashboard r.2) = refreshKey (dashboard w) + 1).
Proof.
  intros d employee req once r Hvalid Hfail. subst once r.
  unfold Dashboard.form_handleSubmit. step. fold employee.
  change (EmployeeForm.handleSubmit employee Dashboard.handleCloseForm
            Dashboard.handleFormSuccess)
    with (perform (Submit employee)).
  rewrite (handleSubmit_run env w employee Hvalid). fold req. rewrite Hfail.
  step. fold employee.
  match goal with
  | |- context [EmployeeForm.handleSubmit employee _ _ env ?w1] =>
      change (EmployeeForm.handleSubmit employee Dashboard.handleCloseForm
                Dashboard.handleFormSuccess env w1)
        with (perform (Submit employee) env w1);
      rewrite (handleSubmit_run env w1 employee Hvalid);
      change (first_call (Submit employee) w1) with req
  end.
  cbn [issued fst snd trace form formData form_loading dashboard].
  split.
  { eexists. split; [by rewrite toasts_app |].
    split; [by intros st c s -> |].
    split; [by intros st -> |].
    split; [by intros st -> | by intros ->]. }
  split; [done |].
  split; [by rewrite calls_app |].
  split.
  { destruct (server env (S (issued w)) req); cbn [trace];
      rewrite !calls_app; cbn; by rewrite <- ?app_assoc. }
  split; [by intros e2 -> |].
  intros [x ->]. done.
Qed.

(** Saving Ann Lee twice, from a form opened with 'Add Employee' and
    filled in, against a backend that answers 409 with a detail. *)
Lemma failed_save_can_be_repeated_witness :
  toasts (trace (Dashboard.form_handleSubmit conflict ann_open).2) =
    [(error, lit "Employee ID already exists")] /\
  length
    (calls
       (trace ((Dashboard.form_handleSubmit ;; Dashboard.form_handleSubmit)
                 conflict ann_open).2)) = 2%nat.
Proof.
  destruct (failed_save_can_be_repeated conflict ann_open
              (RemoteError 409 (Some (lit "Employee ID already exists"))))
    as ((m & H1 & H2 & _) & _ & _ & H3 & _);
    [vm_compute; reflexivity | reflexivity |].
  split.
  - rewrite H1. by rewrite (H2 409 69 (lit "mployee ID already exists")).
  - rewrite H3. reflexivity.
Defined.

(** ** Opening and closing the form *)

Lemma typing_run env es : forall w,
  errors (form w) = ∅ ->
  EmployeeForm.typing es env w =
    (Returned tt,
     mk_world (dashboard w)
       (mk_form (foldl EmployeeForm.set_field (formData (form w)) es)
          (form_loading (form w)) ∅)
       (elist w) (search w) (trace w) (issued w)).
Proof.
  induction es as [| e es IH]; intros w Herr.
  - destruct w as [? [? ? ?] ? ? ? ?]. cbn in Herr. by subst.
  - cbn [EmployeeForm.typing foldl]. step. rewrite handleChange_run, Herr.
    rewrite bool_decide_eq_false_2 by (by intros [? [=]]).
    by rewrite IH.
Qed.

(** X9. The form is mounted when it is opened and unmounted when it is
    closed, and the record chosen with [handleEditEmployee] decides the call
    of the next submit: the mounted form is seeded from the record and,
    submitted as it stands, calls [updateEmployee] with the identifier of
    that record.  Closing the form forgets the record, makes no call and
    does not advance the refresh key.  A form opened with
    [handleAddEmployee] after that starts from the empty draft, whatever
    was edited before: a submit of what has been typed into it since is
    rejected without a call when that is not valid (when nothing has been
    typed, in particular) and is a [createEmployee] of exactly that when it
    is, never an update of the record edited before. *)
Theorem selected_record_decides_the_call
    (env : Env) (w : World) (e : Emp.t)
    (typed : list EmployeeForm.change) :
  let edit := Dashboard.handleEditEmployee e ;; Dashboard.form_mount in
  let cancel := edit ;; Dashboard.handleCloseForm in
  let reopen := cancel ;; Dashboard.handleAddEmployee ;; Dashboard.form_mount in
  let add :=
    reopen ;; EmployeeForm.typing typed ;; Dashboard.form_handleSubmit in
  let d := foldl EmployeeForm.set_field Form.initial typed in
  (form (edit env w).2 = mk_form (EmployeeForm.seed e) false ∅ /\
   selectedEmployee (dashboard (edit env w).2) = Some e /\
   showForm (dashboard (edit env w).2) = true) /\
  (EmployeeForm.newErrors (EmployeeForm.seed e) = ∅ ->
     calls (trace ((edit ;; Dashboard.form_handleSubmit) env w).2) =
       calls (trace w) ++
         [updateEmployee (Emp.id e)
            (EmployeeForm.dataToSubmit (EmployeeForm.seed e))]) /\
  ((cancel env w).1 = Returned tt /\
   dashboard (cancel env w).2 =
     mk_dashboard false None (refreshKey (dashboard w))
       (stats (dashboard w)) (searchResults (dashboard w)) /\
   trace (cancel env w).2 = trace w /\
   issued (cancel env w).2 = issued w) /\
  (form (reopen env w).2 = EmployeeForm.initial_state /\
   selectedEmployee (dashboard (reopen env w).2) = None /\
   showForm (dashboard (reopen env w).2) = true /\
   trace (reopen env w).2 = trace w) /\
  (EmployeeForm.newErrors d <> ∅ ->
     trace (add env w).2 = trace w /\
     showForm (dashboard (add env w).2) = true /\
     formData (form (add env w).2) = d /\
     errors (form (add env w).2) = EmployeeForm.newErrors d) /\
  (EmployeeForm.newErrors d = ∅ ->
     calls (trace (add env w).2) =
       calls (trace w) ++ [createEmployee (EmployeeForm.dataToSubmit d)]).
Proof.
  intros edit cancel reopen add d. subst edit cancel reopen add.
  unfold Dashboard.handleEditEmployee, Dashboard.handleCloseForm,
    Dashboard.handleAddEmployee, Dashboard.form_mount,
    Dashboard.form_handleSubmit, Dashboard.setSelectedEmployee,
    Dashboard.setShowForm, EmployeeForm.mount, EmployeeForm.initial_state,
    EmployeeForm.useEffect_employee, EmployeeForm.setFormData.
  step.
  split; [done |].
  split.
  { intros Hvalid.
    match goal with
    | |- context [EmployeeForm.handleSubmit _ _ _ env ?w1] =>
        exact (handleSubmit_calls env w1 (Some e) Hvalid)
    end. }
  split; [done |].
  split; [done |].
  rewrite typing_run by done. step. fold d.
  split.
  - intros Hinvalid. unfold EmployeeForm.handleSubmit. step.
    rewrite validateForm_run. cbn [form formData].
    by rewrite (bool_decide_eq_false_2 _ Hinvalid).
  - intros Hvalid.
    match goal with
    | |- context [EmployeeForm.handleSubmit _ _ _ env ?w1] =>
        exact (handleSubmit_calls env w1 None Hvalid)
    end.
Qed.

(** Editing Jane Doe sends an update of record 7.  After a cancelled edit
    of Jane Doe, a new form submitted empty makes no call and shows the
    four messages of the required fields; with Ann Lee typed in it sends
    a create of Ann Lee. *)
Lemma selected_record_decides_the_call_witness :
  (exists p,
     calls (trace ((Dashboard.handleEditEmployee jane ;;
                    Dashboard.form_mount ;;
                    Dashboard.form_handleSubmit) (online []) initial_world).2)
       = [updateEmployee 7 p]) /\
  (trace ((Dashboard.handleEditEmployee jane ;;
           Dashboard.form_mount ;;
           Dashboard.handleCloseForm ;;
           Dashboard.handleAddEmployee ;;
           Dashboard.form_mount ;;
           EmployeeForm.typing [] ;;
           Dashboard.form_handleSubmit) (online []) initial_world).2 = [] /\
   size (errors (form ((Dashboard.handleEditEmployee jane ;;
                        Dashboard.form_mount ;;
                        Dashboard.handleCloseForm ;;
                        Dashboard.handleAddEmployee ;;
                        Dashboard.form_mount ;;
                        EmployeeForm.typing [] ;;
                        Dashboard.form_handleSubmit)
                         (online []) initial_world).2)) = 4%nat) /\
  calls (trace ((Dashboard.handleEditEmployee jane ;;
                 Dashboard.form_mount ;;
                 Dashboard.handleCloseForm ;;
                 Dashboard.handleAddEmployee ;;
                 Dashboard.form_mount ;;
                 EmployeeForm.typing ann_typed ;;
                 Dashboard.form_handleSubmit) (online []) initial_world).2)
    = [createEmployee (EmployeeForm.dataToSubmit ann)].
Proof.
  destruct (selected_record_decides_the_call (online []) initial_world jane [])
    as (_ & H2 & _ & _ & H5 & _).
  destruct (selected_record_decides_the_call
              (online []) initial_world jane ann_typed)
    as (_ & _ & _ & _ & _ & H6).
  split; [eexists; apply H2; vm_compute; reflexivity |].
  split.
  - destruct H5 as (Ht & _ & _ & He); [by vm_compute |].
    split; [exact Ht |]. etransitivity; [exact (f_equal size He) |].
    by vm_compute.
  - apply H6. vm_compute. reflexivity.
Defined.

(** ** The search pane *)

(** X10. A search that the backend answers replaces the list by the
    search pane, headed by the number of results, even when there are none
    (the pane then says so); a rejected or failed search leaves the pane as
    it is.  [handleClear] brings the list back and empties the query
    without a gateway call, after which a search is rejected until a term
    is typed. *)
Theorem search_pane_follows_results (env : Env) (w : World) :
  let q := searchTerm (search w) in
  let searched := Dashboard.search_handleSearch env w in
  let cleared := Dashboard.search_handleClear env w in
  (forall found : list Emp.t,
     blank q = false ->
     server env (issued w) (searchEmployees q) = inr found ->
     Dashboard.main_pane (dashboard searched.2) =
       Dashboard.SearchPane (length found)
         (match found with
          | [] => Dashboard.NoResults
          | _ :: _ => Dashboard.ResultsTable found
          end)) /\
  (blank q = true \/
   (exists e, server env (issued w) (searchEmployees q) = inl e) ->
     Dashboard.main_pane (dashboard searched.2) =
       Dashboard.main_pane (dashboard w)) /\
  Dashboard.main_pane (dashboard cleared.2) = Dashboard.ListPane /\
  searchTerm (search cleared.2) = [] /\
  trace cleared.2 = trace w /\
  trace (Dashboard.search_handleSearch env cleared.2).2 =
    trace w ++ [Toast info (lit "Please enter a search term")].
Proof.
  intros q searched cleared. subst searched cleared.
  rewrite !handleSearch_run. fold q.
  unfold Dashboard.search_handleClear, SearchBar.handleClear,
    SearchBar.setSearchTerm, Dashboard.handleSearchResults,
    Dashboard.setSearchResults.
  step. cbn [blank forallb].
  split.
  { intros found -> ->. cbn [dashboard]. by destruct found. }
  split.
  { intros [-> | [e He]]; [done |].
    destruct (blank q); [done |]. by rewrite He. }
  done.
Qed.

(** A search for ["doe"] that finds nothing shows the search pane with no
    results; offline, the list stays. *)
Lemma search_pane_follows_results_witness :
  Dashboard.main_pane
    (dashboard (Dashboard.search_handleSearch (online []) doe_world).2) =
    Dashboard.SearchPane 0 Dashboard.NoResults /\
  Dashboard.main_pane
    (dashboard (Dashboard.search_handleSearch offline doe_world).2) =
    Dashboard.ListPane.
Proof.
  destruct (search_pane_follows_results (online []) doe_world) as (H1 & _).
  destruct (search_pane_follows_results offline doe_world) as (_ & H2 & _).
  split.
  - apply (H1 []); reflexivity.
  - rewrite H2; [reflexivity |]. right. eexists. reflexivity.
Defined.

(** ** The statistics *)

(** X11. [fetchStats] replaces the three counters together or not at
    all: when the three list requests are answered, each counter is the
    [total] of its reply, or [0] when the reply has none; as soon as one of
    them fails no further request is issued and the dashboard state stays
    as it was.  In no case is a notification shown. *)
Theorem fetchStats_is_all_or_nothing (env : Env) (w : World) :
  let all := getAllEmployees ∅ in
  let active := getAllEmployees {[ "is_active" := VBool true ]} in
  let inactive := getAllEmployees {[ "is_active" := VBool false ]} in
  let r := Dashboard.fetchStats env w in
  toasts (trace r.2) = toasts (trace w) /\
  (forall a b c : Listing.t,
     server env (issued w) all = inr a ->
     server env (S (issued w)) active = inr b ->
     server env (S (S (issued w))) inactive = inr c ->
     stats (dashboard r.2) =
       Stats.mk (default 0 (Listing.total a)) (default 0 (Listing.total b))
         (default 0 (Listing.total c)) /\
     calls (trace r.2) = calls (trace w) ++ [all; active; inactive]) /\
  (forall e, server env (issued w) all = inl e ->
     dashboard r.2 = dashboard w /\
     calls (trace r.2) = calls (trace w) ++ [all]) /\
  (forall a e,
     server env (issued w) all = inr a ->
     server env (S (issued w)) active = inl e ->
     dashboard r.2 = dashboard w /\
     calls (trace r.2) = calls (trace w) ++ [all; active]) /\
  (forall a b e,
     server env (issued w) all = inr a ->
     server env (S (issued w)) active = inr b ->
     server env (S (S (issued w))) inactive = inl e ->
     dashboard r.2 = dashboard w /\
     calls (trace r.2) = calls (trace w) ++ [all; active; inactive]).
Proof.
  intros all active inactive r. subst r.
  split; [apply fetchStats_never_notifies |].
  rewrite fetchStats_run. cbv zeta. fold all active inactive. cbn [snd].
  split; [intros a b c -> -> -> | split; [intros e -> | split]].
  - cbn [dashboard stats trace]. by rewrite calls_app.
  - cbn [dashboard trace]. by rewrite calls_app.
  - intros a e -> ->. cbn [dashboard trace]. by rewrite calls_app.
  - intros a b e -> -> ->. cbn [dashboard trace]. by rewrite calls_app.
Qed.

(** With the backend answering, the counters are those of the replies;
    offline, one request is made and the counters stay at zero. *)
Lemma fetchStats_is_all_or_nothing_witness :
  stats (dashboard (Dashboard.fetchStats (online [jane]) initial_world).2) =
    Stats.mk 1 1 1 /\
  stats (dashboard (Dashboard.fetchStats offline initial_world).2) =
    Stats.initial /\
  length (calls (trace (Dashboard.fetchStats offline initial_world).2)) = 1%nat.
Proof.
  destruct (fetchStats_is_all_or_nothing (online [jane]) initial_world)
    as (_ & H1 & _).
  destruct (fetchStats_is_all_or_nothing offline initial_world)
    as (_ & _ & H2 & _).
  destruct (H1 _ _ _ eq_refl eq_refl eq_refl) as [Hs _].
  destruct (H2 _ eq_refl) as [Hd Hc].
  split; [exact Hs |]. rewrite Hd, Hc. split; reflexivity.
Defined.

(** ** All operations *)

(** X12. Whatever the backend answers and whatever the state, no
    operation lets an exception escape, and the busy flag of the component
    is released on every path that set it: after a fetch the list is not
    loading; a submit that passes validation and a search with a term end
    with their flag off, while a rejected submit and a rejected search leave
    it as it was; a deletion or toggle that the backend accepted ends, with
    its re-fetch, with the list not loading. *)
Theorem operations_return_and_release_busy_flags
    (op : operation) (env : Env) (w : World) :
  let r := perform op env w in
  r.1 = Returned tt /\
  match op with
  | Submit _ =>
      form_loading (form r.2) =
        if bool_decide (EmployeeForm.newErrors (formData (form w)) = ∅)
        then false else form_loading (form w)
  | Fetch => list_loading (elist r.2) = false
  | Search =>
      search_loading (search r.2) =
        if blank (searchTerm (search w)) then search_loading (search w)
        else false
  | Delete id employeeName =>
      list_loading (elist r.2) =
        if window_confirm env (delete_prompt employeeName) then
          match server env (issued w) (deleteEmployee id) with
          | inr _ => false
          | inl _ => list_loading (elist w)
          end
        else list_loading (elist w)
  | Toggle id currentStatus employeeName =>
      list_loading (elist r.2) =
        match server env (issued w) (first_call op w) with
        | inr _ => false
        | inl _ => list_loading (elist w)
        end
  | FetchStats => True
  end.
Proof.
  intros r. subst r. split; [apply perform_returns |].
  destruct op as [employee | | id name | id status name | |].
  - case_bool_decide as Hvalid.
    + rewrite (handleSubmit_run env w employee Hvalid). cbn [snd].
      by destruct (server env (issued w) _).
    + cbn [perform]. unfold EmployeeForm.handleSubmit. step.
      rewrite validateForm_run.
      by rewrite (bool_decide_eq_false_2 _ Hvalid).
  - cbn [perform]. rewrite fetchEmployees_run. cbn [snd].
    by destruct (server env (issued w) _).
  - cbn [perform]. rewrite handleDelete_run. cbn [snd].
    destruct (window_confirm env _); [| done].
    destruct (server env (issued w) _); [done |].
    rewrite fetchEmployees_run. cbn [snd].
    by destruct (server env _ _).
  - cbn [perform]. rewrite handleToggleStatus_run. cbn [snd].
    destruct (server env (issued w) _); [done |].
    rewrite fetchEmployees_run. cbn [snd].
    by destruct (server env _ _).
  - cbn [perform]. rewrite handleSearch_run. cbn [snd].
    destruct (blank _); [done |]. by destruct (server env (issued w) _).
  - done.
Qed.

(** X13. Every operation makes at most three gateway calls: at most one
    for a submit, a fetch or a search, at most two for a deletion or a
    toggle, at most three for the statistics.  At most one of them changes
    a record, and any call after the first is a list request.  The counter
    of issued calls advances by their number. *)
Theorem operations_call_budget (op : operation) (env : Env) (w : World) :
  exists new : list request,
    calls (trace (perform op env w).2) = calls (trace w) ++ new /\
    issued (perform op env w).2 = (issued w + length new)%nat /\
    (length new <=
       match op with
       | Submit _ | Fetch | Search => 1
       | Delete _ _ | Toggle _ _ _ => 2
       | FetchStats => 3
       end)%nat /\
    (length (List.filter is_mutation new) <= 1)%nat /\
    Forall (fun r => is_list_request r = true) (tail new).
Proof.
  destruct op as [employee | | id name | id status name | |].
  - destruct (decide (EmployeeForm.newErrors (formData (form w)) = ∅))
      as [Hvalid | Hinvalid].
    + rewrite (handleSubmit_run env w employee Hvalid). cbn [snd].
      exists [first_call (Submit employee) w].
      split; [destruct (server env (issued w) _); cbn [trace];
              by rewrite calls_app |].
      split; [destruct (server env (issued w) _); cbn; lia |].
      split; [cbn; lia |]. split; [| by constructor].
      destruct employee; cbn; lia.
    + exists []. cbn [perform]. unfold EmployeeForm.handleSubmit. step.
      rewrite validateForm_run, (bool_decide_eq_false_2 _ Hinvalid).
      cbn. rewrite app_nil_r. repeat split; try lia. constructor.
  - cbn [perform]. rewrite fetchEmployees_run. cbn [snd].
    eexists [_]. split; [destruct (server env (issued w) _); cbn [trace];
                         by rewrite calls_app |].
    split; [destruct (server env (issued w) _); cbn; lia |].
    cbn. repeat split; try lia. constructor.
  - cbn [perform]. rewrite handleDelete_run. cbn [snd].
    destruct (window_confirm env _).
    + destruct (server env (issued w) _) as [e | x].
      * exists [deleteEmployee id]. cbn [trace issued].
        rewrite calls_app. cbn. repeat split; try lia. constructor.
      * rewrite fetchEmployees_run. cbn [snd issued elist filters trace].
        eexists [deleteEmployee id; _].
        split; [destruct (server env _ _); cbn [trace];
                by rewrite !calls_app, <- app_assoc |].
        split; [destruct (server env _ _); cbn; lia |].
        cbn. repeat split; try lia. by repeat constructor.
    + exists []. cbn [trace issued]. rewrite calls_app. cbn.
      repeat split; try lia. constructor.
  - cbn [perform]. rewrite handleToggleStatus_run. cbn [snd].
    destruct (server env (issued w) _) as [e | x].
    + exists [first_call (Toggle id status name) w]. cbn [trace issued].
      rewrite calls_app. cbn. repeat split; try lia; [| constructor].
      destruct status; cbn; lia.
    + rewrite fetchEmployees_run. cbn [snd issued elist filters trace].
      eexists [first_call (Toggle id status name) w; _].
      split; [destruct (server env _ _); cbn [trace];
              by rewrite !calls_app, <- app_assoc |].
      split; [destruct (server env _ _); cbn; lia |].
      cbn. repeat split; try lia; [| by repeat constructor].
      destruct status; cbn; lia.
  - cbn [perform]. rewrite handleSearch_run. cbn [snd].
    destruct (blank _).
    + exists []. cbn [trace issued]. rewrite calls_app. cbn.
      repeat split; try lia. constructor.
    + eexists [_].
      split; [destruct (server env (issued w) _) as [e | found]; cbn [trace];
              rewrite calls_app; [done |];
              by destruct (bool_decide (length found = 0%nat)) |].
      split; [destruct (server env (issued w) _); cbn; lia |].
      cbn. repeat split; try lia. constructor.
  - cbn [perform]. rewrite fetchStats_run. cbv zeta. cbn [snd].
    destruct (server env (issued w) _) as [e | a];
      [| destruct (server env (S (issued w)) _) as [e | b];
         [| destruct (server env (S (S (issued w))) _) as [e | c]]];
      cbn [trace issued]; rewrite calls_app;
      eexists; (split; [cbn; reflexivity |]); cbn;
      repeat split; try lia; by repeat constructor.
Qed.

(** ** The requests on the wire *)


(** ** What an operation leaves alone *)

(** X15. What each operation leaves alone, among the state that stays
    rendered through it.  A submit never touches the search bar or the
    search results, so that results shown in the search pane are not
    refreshed by a save; it advances the refresh key by one or not at all
    and, when it does not (the draft was rejected or the call failed),
    leaves the dashboard and the draft as they were.  A fetch, a deletion
    and a toggle leave the whole dashboard as it was, the counters
    included (a deletion or a change of status does not refresh the
    statistics), and with it the form, the search bar and the filters.  A
    search leaves the query, the form and everything of the dashboard but
    the results.  The statistics leave everything but the counters. *)
Theorem operations_keep_to_their_component
    (op : operation) (env : Env) (w : World) :
  let r := perform op env w in
  match op with
  | Submit _ =>
      search r.2 = search w /\
      searchResults (dashboard r.2) = searchResults (dashboard w) /\
      stats (dashboard r.2) = stats (dashboard w) /\
      (refreshKey (dashboard r.2) = refreshKey (dashboard w) \/
       refreshKey (dashboard r.2) = refreshKey (dashboard w) + 1) /\
      (refreshKey (dashboard r.2) = refreshKey (dashboard w) ->
         dashboard r.2 = dashboard w /\
         formData (form r.2) = formData (form w))
  | Fetch | Delete _ _ | Toggle _ _ _ =>
      dashboard r.2 = dashboard w /\ form r.2 = form w /\
      search r.2 = search w /\ filters (elist r.2) = filters (elist w)
  | Search =>
      form r.2 = form w /\
      searchTerm (search r.2) = searchTerm (search w) /\
      showForm (dashboard r.2) = showForm (dashboard w) /\
      selectedEmployee (dashboard r.2) = selectedEmployee (dashboard w) /\
      refreshKey (dashboard r.2) = refreshKey (dashboard w) /\
      stats (dashboard r.2) = stats (dashboard w)
  | FetchStats =>
      form r.2 = form w /\ elist r.2 = elist w /\ search r.2 = search w /\
      showForm (dashboard r.2) = showForm (dashboard w) /\
      selectedEmployee (dashboard r.2) = selectedEmployee (dashboard w) /\
      refreshKey (dashboard r.2) = refreshKey (dashboard w) /\
      searchResults (dashboard r.2) = searchResults (dashboard w)
  end.
Proof.
  intros r. subst r.
  destruct op as [employee | | id name | id status name | |].
  - destruct (decide (EmployeeForm.newErrors (formData (form w)) = ∅))
      as [Hvalid | Hinvalid].
    + rewrite (handleSubmit_run env w employee Hvalid). cbn [snd].
      destruct (server env (issued w) _);
        cbn [dashboard search form formData refreshKey searchResults stats].
      * repeat split; try done. by left.
      * repeat split; try done; try (by right); lia.
    + cbn [perform]. unfold EmployeeForm.handleSubmit. step.
      rewrite validateForm_run.
      rewrite (bool_decide_eq_false_2 _ Hinvalid). cbn.
      repeat split; try done. by left.
  - cbn [perform]. rewrite fetchEmployees_run. cbn [snd].
    by destruct (server env (issued w) _).
  - cbn [perform]. rewrite handleDelete_run. cbn [snd].
    destruct (window_confirm env _); [| done].
    destruct (server env (issued w) _); [done |].
    rewrite fetchEmployees_run. cbn [snd].
    by destruct (server env _ _).
  - cbn [perform]. rewrite handleToggleStatus_run. cbn [snd].
    destruct (server env (issued w) _); [done |].
    rewrite fetchEmployees_run. cbn [snd].
    by destruct (server env _ _).
  - cbn [perform]. rewrite handleSearch_run. cbn [snd].
    destruct (blank _); [done |]. by destruct (server env (issued w) _).
  - cbn [perform]. rewrite fetchStats_run. cbv zeta. cbn [snd].
    by repeat case_match.
Qed.

(** ** Mounting the list again *)

(** X16. When [handleClear] has put the list back in place of the search
    pane, the list is mounted afresh: whatever filters were chosen before
    the search, it starts from no filter and its first request is the
    unfiltered [getAllEmployees], the only call made; the query is empty
    and the spinner is gone once the request has been answered or has
    failed. *)
Theorem cleared_search_remounts_the_list (env : Env) (w : World) :
  let r := (Dashboard.search_handleClear ;; Dashboard.list_mount) env w in
  r.1 = Returned tt /\
  calls (trace r.2) = calls (trace w) ++ [getAllEmployees ∅] /\
  filters (elist r.2) = Filters.initial /\
  list_loading (elist r.2) = false /\
  Dashboard.main_pane (dashboard r.2) = Dashboard.ListPane /\
  searchTerm (search r.2) = [] /\
  (forall e : failure,
     server env (issued w) (getAllEmployees ∅) = inl e ->
     employees (elist r.2) = []) /\
  (forall l : Listing.t,
     server env (issued w) (getAllEmployees ∅) = inr l ->
     employees (elist r.2) = default [] (Listing.employees l)).
Proof.
  intros r. subst r.
  unfold Dashboard.search_handleClear, Dashboard.list_mount,
    SearchBar.handleClear, SearchBar.setSearchTerm,
    Dashboard.handleSearchResults, Dashboard.setSearchResults,
    EmployeeList.mount, EmployeeList.useEffect_fetch,
    EmployeeList.initial_state.
  step. rewrite fetchEmployees_run. cbn [snd fst].
  cbn [elist filters issued trace].
  destruct (server env (issued w) _) as [e | l] eqn:E;
    cbn [elist filters trace dashboard search searchTerm list_loading
         employees];
    rewrite ?calls_app.
  - repeat split; done.
  - repeat split; try done. by intros l0 [= ->].
Qed.
